(** * checkbox_api: result normalisation and receipt construction

    A shallow embedding of [src/checkbox_api.py], the client wrapper of the
    Checkbox fiscal cash-register HTTP API, and the properties of its
    result normaliser ([_error], [_parse], [_request]) and of its receipt
    builder ([create_receipt]).

    Python values are an inductive type, dictionaries are insertion-ordered
    association lists, floats are IEEE 754 binary64 numbers (the kernel's
    primitive floats), and the methods of the class run in a monad that
    carries the observable effects (requests handed to the HTTP session,
    log records, identifiers drawn) and Python exceptions. *)

From Stdlib Require Import ZArith List String Ascii Bool Lia.
From Stdlib Require Import Floats DecimalString.
Import ListNotations.

Local Open Scope string_scope.
Local Open Scope Z_scope.

Set Warnings "-register-all,-inexact-float".

(* ===================================================================== *)
(** * Python values *)
(* ===================================================================== *)

Module Py.

(** Insertion-ordered dictionaries with string keys. *)
Definition dict (V : Type) : Type := list (string * V).

Inductive pyval : Type :=
| PNone
| PBool (b : bool)
| PInt (z : Z)
| PFloat (f : float)
| PStr (s : string)
| PList (l : list pyval)
| PDict (d : list (string * pyval)).

Definition pydict : Type := dict pyval.

(** The exceptions that the modelled code can raise by itself. *)
Inductive pyexn : Type :=
| TypeError
| ValueError
| OverflowError
| AttributeError.

(** The result of evaluating an expression: a value or a raised exception. *)
Inductive outcome (A : Type) : Type :=
| Returned (a : A)
| Raised (e : pyexn).
Arguments Returned {A} a.
Arguments Raised {A} e.

Section Dict.
Context {V : Type}.

(** [d.get(k)] on the representation: the first binding of [k]. *)
Fixpoint dict_get (k : string) (d : dict V) : option V :=
  match d with
  | [] => None
  | (k', v) :: rest => if String.eqb k k' then Some v else dict_get k rest
  end.

(** [d[k] = v]: an existing key keeps its place, a new one goes last. *)
Fixpoint dict_set (k : string) (v : V) (d : dict V) : dict V :=
  match d with
  | [] => [(k, v)]
  | (k', v') :: rest =>
      if String.eqb k k' then (k, v) :: rest else (k', v') :: dict_set k v rest
  end.

(** [{**d1, **d2}]. *)
Definition dict_update (d1 d2 : dict V) : dict V :=
  fold_left (fun acc kv => dict_set (fst kv) (snd kv) acc) d2 d1.

(** [{k: v for k, v in d.items() if k != key}]. *)
Definition dict_without (key : string) (d : dict V) : dict V :=
  filter (fun kv => negb (String.eqb (fst kv) key)) d.

Definition has_key (k : string) (d : dict V) : bool :=
  match dict_get k d with Some _ => true | None => false end.
End Dict.

(** [d.get(k)] and [d.get(k, default)] of a Python dict. *)
Definition get (d : pydict) (k : string) : pyval :=
  match dict_get k d with Some v => v | None => PNone end.

Definition get_default (d : pydict) (k : string) (default : pyval) : pyval :=
  match dict_get k d with Some v => v | None => default end.

(** Truth value testing, as [if v:], [not v] and [v or w] use it. *)
Definition truthy (v : pyval) : bool :=
  match v with
  | PNone => false
  | PBool b => b
  | PInt z => negb (z =? 0)
  | PFloat f => negb (PrimFloat.eqb f 0%float)
  | PStr s => negb (String.eqb s "")
  | PList l => match l with [] => false | _ => true end
  | PDict d => match d with [] => false | _ => true end
  end.

(** [v == s] for a string literal [s]: only a [str] equals a [str]. *)
Definition eq_str (v : pyval) (s : string) : bool :=
  match v with
  | PStr t => String.eqb t s
  | _ => false
  end.

(** Truth value of an [Optional[str]] argument. *)
Definition truthy_str (o : option string) : bool :=
  match o with
  | Some s => negb (String.eqb s "")
  | None => false
  end.

(** Truth value of an [Optional[Dict]] argument. *)
Definition truthy_dict {V} (o : option (dict V)) : bool :=
  match o with
  | Some (_ :: _) => true
  | _ => false
  end.

(** [o or {}] for an [Optional[Dict]] argument. *)
Definition or_empty {V} (o : option (dict V)) : dict V :=
  match o with
  | Some d => d
  | None => []
  end.

(** ** Strings *)

(** [s.lstrip('/')]. *)
Fixpoint lstrip_slash (s : string) : string :=
  match s with
  | String c rest => if Ascii.eqb c "/"%char then lstrip_slash rest else s
  | EmptyString => s
  end.

Definition upper_ascii (c : ascii) : ascii :=
  let n := nat_of_ascii c in
  if (97 <=? n)%nat && (n <=? 122)%nat then ascii_of_nat (n - 32) else c.

(** [s.upper()]; the method names passed here are ASCII. *)
Fixpoint upper (s : string) : string :=
  match s with
  | String c rest => String (upper_ascii c) (upper rest)
  | EmptyString => EmptyString
  end.

(** [str(z)] for an [int]. *)
Definition str_of_int (z : Z) : string := NilZero.string_of_int (Z.to_int z).

(** ** Numbers *)

(** [float(z)] for an [int]: the nearest binary64 number, ties to even;
    [None] stands for [OverflowError] (the nearest one is infinite). *)
Definition float_of_int (z : Z) : option float :=
  match binary_normalize prec emax z 0 false with
  | S754_infinity _ => None
  | sf => Some (SF2Prim sf)
  end.

(** The integer nearest to [m * 2^e], ties to the even one. *)
Definition nearest_even (m : positive) (e : Z) : Z :=
  if 0 <=? e then Z.pos m * 2 ^ e
  else
    let d := 2 ^ (- e) in
    let q := Z.pos m / d in
    let r := Z.pos m mod d in
    match 2 * r ?= d with
    | Lt => q
    | Gt => q + 1
    | Eq => if Z.even q then q else q + 1
    end.

(** [round(f)] without [ndigits]: an [int], ties to even; infinities raise
    [OverflowError] and NaN raises [ValueError]. *)
Definition round (f : float) : outcome Z :=
  match Prim2SF f with
  | S754_zero _ => Returned 0
  | S754_infinity _ => Raised OverflowError
  | S754_nan => Raised ValueError
  | S754_finite s m e =>
      Returned (if s then - nearest_even m e else nearest_even m e)
  end.

End Py.


(* ===================================================================== *)
(** * The HTTP collaborator (the [requests] library) *)
(* ===================================================================== *)

Module Requests.
Import Py.

(** The keyword arguments of [Session.request]. *)
Record Request : Type := mkRequest {
  req_method : string;
  req_url : string;
  req_headers : dict string;
  req_params : pydict;
  req_json : pydict;
  req_timeout : Z
}.

(** What the code reads of a [Response]: [json] is the value that
    [r.json()] returns, [None] when it raises [ValueError]. *)
Record Response : Type := mkResponse {
  status_code : Z;
  reason : string;
  url : string;
  text : string;
  json : option pyval
}.

(** A [requests.exceptions.HTTPError]: [str(e)] and [e.response]. *)
Record HTTPError : Type := mkHTTPError {
  http_message : string;
  response : option Response
}.

(** What a call of [Session.request] comes to: a response, an [HTTPError],
    or another [RequestException] (connection, timeout, ...) with its
    [str(e)]. *)
Inductive Outcome : Type :=
| Responded (r : Response)
| RaisedHTTPError (e : HTTPError)
| RaisedRequestException (msg : string).

(** [r.raise_for_status()]: an [HTTPError] carrying the response for a
    status in 400..599, nothing otherwise. *)
Definition raise_for_status (r : Response) : option HTTPError :=
  let s := status_code r in
  if (400 <=? s) && (s <? 500) then
    Some (mkHTTPError
            (str_of_int s ++ " Client Error: " ++ reason r ++ " for url: " ++ url r)
            (Some r))
  else if (500 <=? s) && (s <? 600) then
    Some (mkHTTPError
            (str_of_int s ++ " Server Error: " ++ reason r ++ " for url: " ++ url r)
            (Some r))
  else None.

Definition lower_ascii (c : ascii) : ascii :=
  let n := nat_of_ascii c in
  if (65 <=? n)%nat && (n <=? 90)%nat then ascii_of_nat (n + 32) else c.

Fixpoint lower (s : string) : string :=
  match s with
  | String c rest => String (lower_ascii c) (lower rest)
  | EmptyString => EmptyString
  end.

(** [headers[k] = v] on the session's case-insensitive dictionary: the
    entry whose key matches without regard to case is replaced (and takes
    the new spelling), a new key goes last. *)
Fixpoint ci_set (k v : string) (d : dict string) : dict string :=
  match d with
  | [] => [(k, v)]
  | (k', v') :: rest =>
      if String.eqb (lower k) (lower k') then (k, v) :: rest
      else (k', v') :: ci_set k v rest
  end.

(** [headers.update(d2)]. *)
Definition ci_update (d1 d2 : dict string) : dict string :=
  fold_left (fun acc kv => ci_set (fst kv) (snd kv) acc) d2 d1.

End Requests.

(* ===================================================================== *)
(** * Effects *)
(* ===================================================================== *)

Module Effects.
Import Py Requests.

(** What lies outside the module: the answer of the HTTP session to each
    request, the identifiers that [uuid.uuid4()] draws, the headers a fresh
    [requests.Session] starts with, and the two builtins whose algorithms
    are CPython's ([float] of a string, [None] for [ValueError]; [str] of a
    float, a list or a dictionary). *)
Record Env : Type := mkEnv {
  session_request : Request -> Outcome;
  uuid4 : nat -> string;
  default_headers : dict string;
  float_of_str : string -> option float;
  str_of_value : pyval -> string
}.

(** The effects a caller can observe: the requests handed to the session,
    the records logged, and how many identifiers were drawn. *)
Record World : Type := mkWorld {
  net_calls : list Request;
  logged : list string;
  uuids_drawn : nat
}.

(** A method body: it returns or raises, and leaves a world behind in
    both cases. *)
Definition M (A : Type) : Type := World -> outcome A * World.

Definition ret {A} (a : A) : M A := fun w => (Returned a, w).

Definition bind {A B} (m : M A) (k : A -> M B) : M B :=
  fun w =>
    match m w with
    | (Returned a, w') => k a w'
    | (Raised e, w') => (Raised e, w')
    end.

(** A pure computation that may raise. *)
Definition lift {A} (o : outcome A) : M A := fun w => (o, w).

(** [for x in l: acc.append(f(x))]. *)
Fixpoint for_each {A B} (f : A -> M B) (l : list A) : M (list B) :=
  match l with
  | [] => ret []
  | x :: rest =>
      bind (f x) (fun y => bind (for_each f rest) (fun ys => ret (y :: ys)))
  end.

Section WithEnv.
Context (env : Env).

(** [self.session.request(...)]. *)
Definition send (rq : Request) : M Outcome :=
  fun w =>
    (Returned (session_request env rq),
     mkWorld (net_calls w ++ [rq]) (logged w) (uuids_drawn w)).

(** [logger.error(fmt, e)]. *)
Definition log_error (prefix msg : string) : M unit :=
  fun w =>
    (Returned tt,
     mkWorld (net_calls w) (logged w ++ [prefix ++ msg]) (uuids_drawn w)).

(** [str(uuid.uuid4())]. *)
Definition fresh_uuid : M string :=
  fun w =>
    (Returned (uuid4 env (uuids_drawn w)),
     mkWorld (net_calls w) (logged w) (S (uuids_drawn w))).
End WithEnv.

End Effects.

Declare Scope py_scope.
Delimit Scope py_scope with py.
Notation "x <- m ;; k" := (Effects.bind m (fun x => k))
  (at level 100, m at next level, right associativity) : py_scope.
Notation "m ;;; k" := (Effects.bind m (fun _ => k))
  (at level 100, right associativity) : py_scope.

(* ===================================================================== *)
(** * The client: [src/checkbox_api.py] *)
(* ===================================================================== *)

Module Checkbox.
Import Py Requests Effects.
Local Open Scope py_scope.

Record CheckboxConfig : Type := mkConfig {
  check_url : string;
  api_url : string;
  api_version : string;
  client_name : string;
  client_version : string;
  timeout_sec : Z
}.

(** [CheckboxConfig()]: the defaults of the dataclass. *)
Definition default_config : CheckboxConfig :=
  mkConfig "https://check.checkbox.ua/" "https://api.checkbox.ua/api/"
           "v1" "Name" "v1" 25.

(** An instance of the class: its [cfg] and the headers of its session. *)
Record CheckboxAPI : Type := mkAPI {
  cfg : CheckboxConfig;
  session_headers : dict string
}.

Definition discount_value : string := "VALUE".
Definition discount_percent : string := "PERCENT".
Definition cash_payment_type : string := "CASH".
Definition no_cash_payment_type : string := "CASHLESS".
Definition full_payment : string := "FULL".
Definition prepayment : string := "PREPAYMENT".
Definition postpaid : string := "POSTPAID".

(** [CheckboxAPI._error] (a static method). [.get] exists on a [dict]
    only: any other value that passes [payload or {}] raises
    [AttributeError]. *)
Definition _error (status_code : Z) (error : string) (payload : pyval)
  : outcome pydict :=
  match (if truthy payload then payload else PDict []) with
  | PDict d =>
      let m := get d "message" in
      let msg := if truthy m then m else PStr error in
      Returned [("success", PBool false);
                ("status", PInt status_code);
                ("error", PStr error);
                ("error_description", msg);
                ("data", PDict d)]
  | _ => Raised AttributeError
  end.

(** [CheckboxAPI._parse]. *)
Definition _parse (r : Response) : pydict :=
  let data :=
    match json r with
    | Some v => v
    | None => PDict [("raw", PStr (text r))]
    end in
  let ok := (200 <=? status_code r) && (status_code r <? 300) in
  [("success", PBool ok); ("status", PInt (status_code r)); ("data", data)].

Section Methods.
Context (env : Env).

(** [CheckboxAPI.__init__]. *)
Definition __init__ (config : option CheckboxConfig) : CheckboxAPI :=
  let c := match config with Some c => c | None => default_config end in
  mkAPI c
        (ci_update (default_headers env)
                   [("accept", "application/json");
                    ("Content-Type", "application/json");
                    ("X-Client-Name", client_name c);
                    ("X-Client-Version", client_version c)]).

Context (self : CheckboxAPI).

(** The handler [except requests.exceptions.HTTPError as e] of
    [_request]. *)
Definition except_HTTPError (e : HTTPError) : M pydict :=
  log_error "Checkbox HTTP error: " (http_message e) ;;;
  let status :=
    match response e with
    | Some r => status_code r
    | None => 400
    end in
  let payload :=
    match response e with
    | Some r =>
        match json r with
        | Some v => v
        | None => PDict [("raw", PStr (text r))]
        end
    | None => PDict [("raw", PStr (http_message e))]
    end in
  lift (_error status "HTTP error" payload).

(** The handler [except requests.exceptions.RequestException as e] of
    [_request]. *)
Definition except_RequestException (msg : string) : M pydict :=
  log_error "Checkbox network error: " msg ;;;
  lift (_error 400 "Network error" (PDict [("detail", PStr msg)])).

(** The arguments that [_request] hands to [self.session.request]. *)
Definition request_kwargs (method endpoint : string)
           (headers : option (dict string)) (params body : option pydict)
  : Request :=
  let url :=
    api_url (cfg self) ++ api_version (cfg self) ++ "/" ++ lstrip_slash endpoint in
  mkRequest (upper method) url
            (dict_update (session_headers self) (or_empty headers))
            (or_empty params) (or_empty body)
            (timeout_sec (cfg self)).

(** [CheckboxAPI._request]. *)
Definition _request (method endpoint : string)
           (headers : option (dict string)) (params body : option pydict)
  : M pydict :=
  out <- send env (request_kwargs method endpoint headers params body) ;;
  match out with
  | Responded r =>
      match raise_for_status r with
      | Some e => except_HTTPError e
      | None => ret (_parse r)
      end
  | RaisedHTTPError e => except_HTTPError e
  | RaisedRequestException msg => except_RequestException msg
  end.

(** An [Optional[str]] argument as a value. *)
Definition of_opt_str (o : option string) : pyval :=
  match o with
  | Some s => PStr s
  | None => PNone
  end.

(** [CheckboxAPI.cashier_signin]. *)
Definition cashier_signin (login password : option string) : M pydict :=
  if negb (truthy_str login) || negb (truthy_str password) then
    lift (_error 400 "Bad request"
                 (PDict [("detail", PStr "login and password are required")]))
  else
    _request "POST" "cashier/signin" None None
             (Some [("login", of_opt_str login); ("password", of_opt_str password)]).

(** [CheckboxAPI.open_shift]. *)
Definition open_shift (license_key access_token : string) : M pydict :=
  id <- fresh_uuid env ;;
  _request "POST" "shifts"
           (Some [("X-License-Key", license_key);
                  ("Authorization", "Bearer " ++ access_token)])
           None
           (Some [("id", PStr id)]).

(** [CheckboxAPI.status_shift]. *)
Definition status_shift (access_token shift_id : string) : M pydict :=
  _request "GET" ("shifts/" ++ shift_id)
           (Some [("Authorization", "Bearer " ++ access_token)])
           None None.

(** [CheckboxAPI.close_shift]. *)
Definition close_shift (license_key access_token shift_id : string) : M pydict :=
  _request "POST" ("shifts/" ++ shift_id ++ "/close")
           (Some [("X-License-Key", license_key);
                  ("Authorization", "Bearer " ++ access_token)])
           None None.

(** [float(v)]. *)
Definition py_float (v : pyval) : outcome float :=
  match v with
  | PFloat f => Returned f
  | PInt z =>
      match float_of_int z with
      | Some f => Returned f
      | None => Raised OverflowError
      end
  | PBool b => Returned (if b then 1%float else 0%float)
  | PStr s =>
      match float_of_str env s with
      | Some f => Returned f
      | None => Raised ValueError
      end
  | PNone | PList _ | PDict _ => Raised TypeError
  end.

(** [int(round(float(v) * 100))], the conversion of a decimal amount to
    minor units. *)
Definition minor_units (v : pyval) : outcome Z :=
  match py_float v with
  | Returned f => Py.round (f * 100)%float
  | Raised e => Raised e
  end.

(** [str(v)], as an f-string formats a value. *)
Definition py_str (v : pyval) : string :=
  match v with
  | PStr s => s
  | PNone => "None"
  | PBool true => "True"
  | PBool false => "False"
  | PInt z => str_of_int z
  | _ => str_of_value env v
  end.

(** The dictionary appended to [goods] for the product [p], [price]
    being its converted price. *)
Definition good_literal (p : pydict) (price : Z) : pyval :=
  PDict [("good",
          PDict [("code", PStr ("order_product_" ++ py_str (get p "order_product")));
                 ("name", get p "product_name");
                 ("price", PInt price)]);
         ("quantity", PInt 1000);
         ("is_return", PBool false);
         ("is_winnings_payout", PBool false)].

(** The body of the loop [for p in products] of [create_receipt]. *)
Definition good_entry (p : pydict) : M pyval :=
  price <- lift (minor_units (get_default p "product_price" (PInt 0))) ;;
  ret (good_literal p price).

(** The dictionary literal assigned to [receipt], [goods], [id] and
    [value] being the goods built, the identifier drawn and the
    converted payment total. *)
Definition receipt_literal (id cashier : string) (goods : list pyval)
           (client payment : pydict) (value order_id : Z) : pydict :=
  [("id", PStr id);
   ("cashier_name", PStr cashier);
   ("goods", PList goods);
   ("delivery", PDict [("phone", get client "phone")]);
   ("payments",
    PList [PDict [("type", get payment "payment_type");
                  ("value", PInt value);
                  ("label", PStr ("Order #" ++ str_of_int order_id));
                  ("payment_system", get payment "payment_system");
                  ("rrn", get payment "payment_system_invoice_id");
                  ("owner_name", get client "full_name");
                  ("signature_required", PBool false)]]);
   ("rounding", PBool false)].

(** The local [discount_value] of [create_receipt]: the amount in minor
    units for the type "VALUE", the amount as it was given otherwise. *)
Definition discount_amount (d : pydict) : outcome pyval :=
  if eq_str (get d "discount_type") discount_value then
    match minor_units (get_default d "discount_amount" (PInt 0)) with
    | Returned v => Returned (PInt v)
    | Raised e => Raised e
    end
  else Returned (get d "discount_amount").

(** The one element of [receipt["discounts"]]. *)
Definition discount_literal (d : pydict) (dv : pyval) : pyval :=
  PDict [("type", PStr "DISCOUNT");
         ("mode", get d "discount_type");
         ("value", dv);
         ("name", PStr "Знижка")].

(** The first part of [create_receipt], up to the choice of the
    endpoint: the [receipt] dictionary. *)
Definition build_receipt (cashier : string) (order_id : Z) (client : pydict)
           (products : list pydict) (discount : option pydict)
           (payment : pydict) : M pydict :=
  goods <- for_each good_entry products ;;
  id <- fresh_uuid env ;;
  value <- lift (minor_units (get_default payment "total_amount" (PInt 0))) ;;
  let receipt := receipt_literal id cashier goods client payment value order_id in
  if truthy_dict discount then
    dv <- lift (discount_amount (or_empty discount)) ;;
    ret (dict_set "discounts" (PList [discount_literal (or_empty discount) dv]) receipt)
  else ret receipt.

(** [CheckboxAPI.create_receipt]. *)
Definition create_receipt (access_token cashier : string) (order_id : Z)
           (client : pydict) (products : list pydict)
           (discount : option pydict) (payment : pydict)
           (relation_id : option string) : M pydict :=
  receipt <- build_receipt cashier order_id client products discount payment ;;
  let payment_method := get payment "payment_method" in
  let headers := [("Authorization", "Bearer " ++ access_token)] in
  if eq_str payment_method prepayment then
    _request "POST" "prepayment-receipts" (Some headers) None (Some receipt)
  else if eq_str payment_method postpaid then
    if negb (truthy_str relation_id) then
      lift (_error 400 "Bad request"
                   (PDict [("detail", PStr "relation_id is required for POSTPAID")]))
    else
      _request "POST"
               ("prepayment-receipts/" ++ py_str (of_opt_str relation_id))
               (Some headers) None (Some (dict_without "goods" receipt))
  else
    _request "POST" "receipts/sell" (Some headers) None (Some receipt).

End Methods.

End Checkbox.

(* ===================================================================== *)
(** * Vocabulary of the statements *)
(* ===================================================================== *)

Import Py Requests Effects Checkbox.

(** The world after one more request has been handed to the session. *)
Definition after_call (w : World) (rq : Request) : World :=
  mkWorld (net_calls w ++ [rq]) (logged w) (uuids_drawn w).

(** The world after one more record has been logged. *)
Definition after_log (w : World) (line : string) : World :=
  mkWorld (net_calls w) (logged w ++ [line]) (uuids_drawn w).

(** The world after one more identifier has been drawn. *)
Definition after_uuid (w : World) : World :=
  mkWorld (net_calls w) (logged w) (S (uuids_drawn w)).

(** The value of [error_description] that [_error] derives from the
    payload [d]: its [message] when that is truthy, the error otherwise. *)
Definition description_of (error : string) (d : pydict) : pyval :=
  match dict_get "message" d with
  | Some m => if truthy m then m else PStr error
  | None => PStr error
  end.

(** The five-field record of a failure. *)
Definition failure (status : Z) (error : string) (d : pydict) : pydict :=
  [("success", PBool false);
   ("status", PInt status);
   ("error", PStr error);
   ("error_description", description_of error d);
   ("data", PDict d)].

(** A result record: the three fields that every result carries. *)
Definition is_result (res : pydict) : bool :=
  has_key "success" res && has_key "status" res && has_key "data" res.




(** A float that is neither infinite nor NaN. *)
Definition finite (f : float) : bool :=
  match Prim2SF f with
  | S754_zero _ | S754_finite _ _ _ => true
  | S754_infinity _ | S754_nan => false
  end.

(** The amount [v] converts to minor units: [int(round(float(v) * 100))]
    raises nothing. *)
Definition converts (env : Env) (v : pyval) : bool :=
  match minor_units env v with
  | Returned _ => true
  | Raised _ => false
  end.

(** Every amount that [create_receipt] converts does convert: the price of
    each product, the payment total, and the amount of a non-empty discount
    of type "VALUE". *)
Definition amounts_convert (env : Env) (products : list pydict)
           (discount : option pydict) (payment : pydict) : bool :=
  forallb (fun p => converts env (get_default p "product_price" (PInt 0))) products
  && converts env (get_default payment "total_amount" (PInt 0))
  && (if truthy_dict discount
         && eq_str (get (or_empty discount) "discount_type") discount_value
      then converts env (get_default (or_empty discount) "discount_amount" (PInt 0))
      else true).

(** The goods that the loop of [create_receipt] builds, without the
    monad: the loop has no effect on the world. *)
Fixpoint converted_goods (env : Env) (products : list pydict) : outcome (list pyval) :=
  match products with
  | [] => Returned []
  | p :: rest =>
      match minor_units env (get_default p "product_price" (PInt 0)) with
      | Returned price =>
          match converted_goods env rest with
          | Returned goods => Returned (good_literal env p price :: goods)
          | Raised e => Raised e
          end
      | Raised e => Raised e
      end
  end.

(** The public operations as one type, to speak of every one of them. *)
Inductive Call : Type :=
| SignIn (login password : option string)
| OpenShift (license_key access_token : string)
| ShiftStatus (access_token shift_id : string)
| CloseShift (license_key access_token shift_id : string)
| CreateReceipt (access_token cashier : string) (order_id : Z) (client : pydict)
                (products : list pydict) (discount : option pydict)
                (payment : pydict) (relation_id : option string).

(** The method that a call runs. *)
Definition perform (env : Env) (self : CheckboxAPI) (c : Call) : M pydict :=
  match c with
  | SignIn login password => cashier_signin env self login password
  | OpenShift license_key access_token => open_shift env self license_key access_token
  | ShiftStatus access_token shift_id => status_shift env self access_token shift_id
  | CloseShift license_key access_token shift_id =>
      close_shift env self license_key access_token shift_id
  | CreateReceipt access_token cashier order_id client products discount payment
                  relation_id =>
      create_receipt env self access_token cashier order_id client products discount
                     payment relation_id
  end.

(** The amounts of a call convert: only [create_receipt] has any. *)
Definition call_amounts_convert (env : Env) (c : Call) : bool :=
  match c with
  | CreateReceipt _ _ _ _ products discount payment _ =>
      amounts_convert env products discount payment
  | _ => true
  end.

(** A run of [n] slashes. *)
Fixpoint slashes (n : nat) : string :=
  match n with
  | O => ""
  | S n' => String "/" (slashes n')
  end.

(** The keys of a header dictionary without regard to case. *)
Definition lower_keys (d : dict string) : list string :=
  map (fun kv => lower (fst kv)) d.

(** The world after the calls [cs], one after the other, whatever each of
    them returns or raises. *)
Definition run_calls (env : Env) (self : CheckboxAPI) (cs : list Call) (w : World)
  : World :=
  fold_left (fun w0 c => snd (perform env self c w0)) cs w.

(** ** Concrete scenarios *)

Module Scenario.

Definition uuid_of (n : nat) : string := "uuid-" ++ str_of_int (Z.of_nat n).

(** A session that answers every request with [o]. *)
Definition env_of (o : Outcome) : Env :=
  mkEnv (fun _ => o) uuid_of
        [("User-Agent", "python-requests/2.31.0");
         ("Accept-Encoding", "gzip, deflate");
         ("Accept", "*/*");
         ("Connection", "keep-alive")]
        (fun _ => None) (fun _ => "").

Definition idle : World := mkWorld [] [] 0.

Definition the_url : string := "https://api.checkbox.ua/api/v1/shifts/7".

Definition ok_list : Response :=
  mkResponse 200 "OK" the_url "[1, 2]" (Some (PList [PInt 1; PInt 2])).

Definition not_modified : Response :=
  mkResponse 304 "Not Modified" the_url "" None.

Definition not_found : Response :=
  mkResponse 404 "Not Found" the_url "{}" (Some (PDict [])).

Definition server_error_list : Response :=
  mkResponse 500 "Internal Server Error" the_url "[1]" (Some (PList [PInt 1])).

Definition bad_request_empty_message : Response :=
  mkResponse 400 "Bad Request" the_url "{message: empty}"
             (Some (PDict [("message", PStr "")])).

Definition server_error_empty_list : Response :=
  mkResponse 500 "Internal Server Error" the_url "[]" (Some (PList [])).

(** Identifiers that never repeat: the [n]-th one has [n] strokes. *)
Fixpoint tally (n : nat) : string :=
  match n with
  | O => "#"
  | S n' => String "i" (tally n')
  end.

Definition refused : Outcome :=
  RaisedRequestException "Connection refused".

(** A session that answers every request with the response [r]. *)
Definition answering (r : Response) : Env := env_of (Responded r).

(** A session that reaches no server. *)
Definition offline : Env := env_of refused.

(** A session that reaches no server, with the identifiers of [tally]. *)
Definition counting : Env :=
  mkEnv (fun _ => refused) tally [] (fun _ => None) (fun _ => "").

(** [CheckboxAPI()]: the default configuration. *)
Definition api : CheckboxAPI := __init__ offline None.

Definition client : pydict :=
  [("phone", PStr "+380501234567"); ("full_name", PStr "Olena K.")].

Definition tea (price : pyval) : pydict :=
  [("order_product", PInt 5); ("product_name", PStr "Tea"); ("product_price", price)].

Definition payment (method : string) : pydict :=
  [("payment_type", PStr "CASHLESS");
   ("total_amount", PFloat 14.49);
   ("payment_system", PStr "VISA");
   ("payment_system_invoice_id", PStr "inv-1");
   ("payment_method", PStr method)].

Definition value_discount : pydict :=
  [("discount_type", PStr "VALUE"); ("discount_amount", PFloat 5.5)].

Definition percent_discount : pydict :=
  [("discount_type", PStr "PERCENT"); ("discount_amount", PInt 10)].

(** The receipt expected for cashier "Ann", order 12, [client], one
    [tea] at 19.99 and [payment], without its discounts. *)
Definition receipt_base : pydict :=
  [("id", PStr "uuid-0");
   ("cashier_name", PStr "Ann");
   ("goods",
    PList [PDict [("good", PDict [("code", PStr "order_product_5");
                                  ("name", PStr "Tea");
                                  ("price", PInt 1999)]);
                  ("quantity", PInt 1000);
                  ("is_return", PBool false);
                  ("is_winnings_payout", PBool false)]]);
   ("delivery", PDict [("phone", PStr "+380501234567")]);
   ("payments",
    PList [PDict [("type", PStr "CASHLESS");
                  ("value", PInt 1449);
                  ("label", PStr "Order #12");
                  ("payment_system", PStr "VISA");
                  ("rrn", PStr "inv-1");
                  ("owner_name", PStr "Olena K.");
                  ("signature_required", PBool false)]]);
   ("rounding", PBool false)].

Definition receipt_with (mode : string) (value : Z) : pydict :=
  (receipt_base ++
   [("discounts",
     PList [PDict [("type", PStr "DISCOUNT");
                   ("mode", PStr mode);
                   ("value", PInt value);
                   ("name", PStr "Знижка")]])])%list.

End Scenario.

(* ===================================================================== *)
(** * The result normaliser *)
(* ===================================================================== *)

Section Normaliser.
Context (env : Env) (self : CheckboxAPI).

Lemma raise_for_status_none (r : Response) :
  ~ (400 <= status_code r < 600) -> raise_for_status r = None.
Proof.
  intros H. unfold raise_for_status.
  destruct (400 <=? status_code r) eqn:E1; simpl.
  - apply Z.leb_le in E1.
    destruct (status_code r <? 500) eqn:E2; simpl.
    + apply Z.ltb_lt in E2. lia.
    + apply Z.ltb_ge in E2.
      destruct (500 <=? status_code r) eqn:E3; simpl; [| reflexivity].
      destruct (status_code r <? 600) eqn:E4; simpl; [| reflexivity].
      apply Z.ltb_lt in E4. lia.
  - apply Z.leb_gt in E1.
    destruct (500 <=? status_code r) eqn:E3; simpl; [| reflexivity].
    apply Z.leb_le in E3. lia.
Qed.

Lemma raise_for_status_some (r : Response) :
  400 <= status_code r < 600 ->
  exists msg, raise_for_status r = Some (mkHTTPError msg (Some r)).
Proof.
  intros [H1 H2]. unfold raise_for_status.
  apply Z.leb_le in H1. rewrite H1. simpl.
  destruct (status_code r <? 500) eqn:E2; [eauto |].
  apply Z.ltb_ge in E2.
  assert (E3 : (500 <=? status_code r) = true) by (apply Z.leb_le; lia).
  assert (E4 : (status_code r <? 600) = true) by (apply Z.ltb_lt; lia).
  rewrite E3, E4. simpl. eauto.
Qed.

(** [_error] on a dictionary payload, empty or not. *)
Lemma _error_dict (status : Z) (error : string) (d : pydict) :
  _error status error (PDict d) = Returned (failure status error d).
Proof.
  unfold _error.
  assert (E : (if truthy (PDict d) then PDict d else PDict []) = PDict d)
    by (destruct d; reflexivity).
  rewrite E. unfold failure, description_of, get.
  destruct (dict_get "message" d); reflexivity.
Qed.

Lemma _error_returned (status : Z) (error : string) (payload : pyval) (res : pydict) :
  _error status error payload = Returned res ->
  exists d, res = failure status error d.
Proof.
  unfold _error.
  destruct (if truthy payload then payload else PDict []) as [| | | | | | d] eqn:E;
    try discriminate.
  intros H. injection H as <-. exists d.
  unfold failure, description_of, get.
  destruct (dict_get "message" d); reflexivity.
Qed.


(** One step of [_request]: the request is recorded, then the outcome of
    the session decides. *)
Lemma _request_run method endpoint headers params body (w : World) :
  _request env self method endpoint headers params body w =
  let rq := request_kwargs self method endpoint headers params body in
  match session_request env rq with
  | Responded r =>
      match raise_for_status r with
      | Some e => except_HTTPError e (after_call w rq)
      | None => (Returned (_parse r), after_call w rq)
      end
  | RaisedHTTPError e => except_HTTPError e (after_call w rq)
  | RaisedRequestException msg => except_RequestException msg (after_call w rq)
  end.
Proof.
  unfold _request, bind, send, after_call. simpl.
  destruct (session_request env _) as [r | e | msg]; try reflexivity.
  destruct (raise_for_status r); reflexivity.
Qed.

(** The handler of HTTP errors on a response whose payload is the
    dictionary [d]. *)
Lemma except_HTTPError_dict (msg : string) (r : Response) (d : pydict) (w : World) :
  (json r = Some (PDict d) \/ (json r = None /\ d = [("raw", PStr (text r))])) ->
  except_HTTPError (mkHTTPError msg (Some r)) w =
  (Returned (failure (status_code r) "HTTP error" d),
   after_log w ("Checkbox HTTP error: " ++ msg)).
Proof.
  intros H. unfold except_HTTPError, bind, log_error, lift, after_log.
  cbn [response http_message].
  destruct H as [H | [H ->]]; rewrite H; rewrite _error_dict; reflexivity.
Qed.

Lemma except_HTTPError_returned (e : HTTPError) (w w' : World) (res : pydict) :
  except_HTTPError e w = (Returned res, w') ->
  dict_get "success" res = Some (PBool false).
Proof.
  unfold except_HTTPError, bind, log_error, lift.
  intros H. injection H as H _.
  apply _error_returned in H. destruct H as [d ->]. reflexivity.
Qed.

Lemma except_HTTPError_net_calls (e : HTTPError) (w : World) :
  net_calls (snd (except_HTTPError e w)) = net_calls w.
Proof. reflexivity. Qed.


Lemma in_2xx_reflect (s : Z) :
  ((200 <=? s) && (s <? 300) = true) <-> 200 <= s < 300.
Proof.
  rewrite andb_true_iff, Z.leb_le, Z.ltb_lt. reflexivity.
Qed.

(** [_request] hands exactly one request to the session, whatever comes
    of it. *)
Lemma _request_net_calls method endpoint headers params body (w : World) :
  net_calls (snd (_request env self method endpoint headers params body w)) =
  (net_calls w ++ [request_kwargs self method endpoint headers params body])%list.
Proof.
  rewrite _request_run. cbv zeta.
  destruct (session_request env _) as [r | e | msg]; try reflexivity.
  destruct (raise_for_status r); reflexivity.
Qed.



End Normaliser.

(* ===================================================================== *)
(** * The receipt builder *)
(* ===================================================================== *)

Section Dictionaries.
Context {V : Type}.

Lemma dict_get_without_same (key : string) (d : dict V) :
  dict_get key (dict_without key d) = None.
Proof.
  induction d as [| [k v] d IH]; [reflexivity |].
  unfold dict_without in *. cbn [filter fst].
  destruct (String.eqb k key) eqn:E; cbn [negb]; [exact IH |].
  cbn [dict_get]. rewrite String.eqb_sym, E. exact IH.
Qed.

Lemma dict_get_without_other (key k : string) (d : dict V) :
  k <> key -> dict_get k (dict_without key d) = dict_get k d.
Proof.
  intros Hk. induction d as [| [k' v] d IH]; [reflexivity |].
  unfold dict_without in *. cbn [filter fst].
  destruct (String.eqb k' key) eqn:E; cbn [negb dict_get].
  - apply String.eqb_eq in E. subst k'.
    apply String.eqb_neq in Hk. rewrite Hk. exact IH.
  - destruct (String.eqb k k'); [reflexivity | exact IH].
Qed.

Lemma truthy_dict_iff (o : option (dict V)) :
  truthy_dict o = true <-> exists d, o = Some d /\ d <> [].
Proof.
  split.
  - destruct o as [[| kv d] |]; try discriminate.
    intros _. exists (kv :: d). split; [reflexivity | discriminate].
  - intros [d [-> Hd]]. destruct d; [contradiction | reflexivity].
Qed.

End Dictionaries.

Lemma eq_str_false (v : pyval) (s : string) :
  v <> PStr s -> eq_str v s = false.
Proof.
  intros H. destruct v as [| | | | t | |]; try reflexivity.
  cbn [eq_str]. apply String.eqb_neq. intros ->. apply H. reflexivity.
Qed.

Section Builder.
Context (env : Env) (self : CheckboxAPI).

Lemma for_each_goods (products : list pydict) (w : World) :
  for_each (good_entry env) products w = (converted_goods env products, w).
Proof.
  induction products as [| p rest IH]; [reflexivity |].
  cbn [for_each converted_goods]. unfold bind at 1.
  unfold good_entry at 1. unfold bind at 1, lift at 1.
  destruct (minor_units env (get_default p "product_price" (PInt 0))) as [price | e];
    [| reflexivity].
  unfold ret at 1. unfold bind at 1. rewrite IH.
  destruct (converted_goods env rest); reflexivity.
Qed.

(** [build_receipt] without the monad. *)
Lemma build_receipt_run cashier order_id client products discount payment (w : World) :
  build_receipt env cashier order_id client products discount payment w =
  match converted_goods env products with
  | Raised e => (Raised e, w)
  | Returned goods =>
      match minor_units env (get_default payment "total_amount" (PInt 0)) with
      | Raised e => (Raised e, after_uuid w)
      | Returned value =>
          let base :=
            receipt_literal (uuid4 env (uuids_drawn w)) cashier goods
                            client payment value order_id in
          if truthy_dict discount then
            match discount_amount env (or_empty discount) with
            | Returned dv =>
                (Returned (base ++ [("discounts",
                                     PList [discount_literal (or_empty discount) dv])])%list,
                 after_uuid w)
            | Raised e => (Raised e, after_uuid w)
            end
          else (Returned base, after_uuid w)
      end
  end.
Proof.
  unfold build_receipt. unfold bind at 1. rewrite for_each_goods.
  destruct (converted_goods env products) as [goods | e]; [| reflexivity].
  unfold bind at 1, fresh_uuid at 1. unfold bind at 1, lift at 1.
  fold (after_uuid w).
  destruct (minor_units env (get_default payment "total_amount" (PInt 0)))
    as [value | e]; [| reflexivity].
  cbv zeta. destruct (truthy_dict discount); [| reflexivity].
  unfold bind, lift.
  destruct (discount_amount env (or_empty discount)); reflexivity.
Qed.

(** Building the receipt hands nothing to the session and logs nothing. *)
Lemma build_receipt_quiet cashier order_id client products discount payment (w : World) :
  let w' := snd (build_receipt env cashier order_id client products discount payment w) in
  net_calls w' = net_calls w /\ logged w' = logged w.
Proof.
  rewrite build_receipt_run.
  destruct (converted_goods env products); [| split; reflexivity].
  destruct (minor_units env _); [| split; reflexivity].
  cbv zeta. destruct (truthy_dict discount); [| split; reflexivity].
  destruct (discount_amount env _); split; reflexivity.
Qed.

Lemma converted_goods_returns (products : list pydict) :
  (exists goods, converted_goods env products = Returned goods) <->
  forallb (fun p => converts env (get_default p "product_price" (PInt 0))) products = true.
Proof.
  induction products as [| p rest IH].
  - split; [reflexivity | intros _; exists []; reflexivity].
  - cbn [converted_goods forallb]. unfold converts at 1.
    destruct (minor_units env (get_default p "product_price" (PInt 0))) as [z | e].
    + rewrite andb_true_l, <- IH. split.
      * intros [goods H]. destruct (converted_goods env rest) as [gs | e];
          [exists gs; reflexivity | discriminate].
      * intros [gs H]. rewrite H. eexists. reflexivity.
    + split; [intros [goods H]; discriminate | intros H; discriminate].
Qed.


(** The receipt is built exactly when every amount converts. *)
Lemma build_receipt_returns cashier order_id client products discount payment (w : World) :
  (exists receipt,
      build_receipt env cashier order_id client products discount payment w
      = (Returned receipt, after_uuid w)) <->
  amounts_convert env products discount payment = true.
Proof.
  rewrite build_receipt_run. unfold amounts_convert.
  rewrite !andb_true_iff, <- converted_goods_returns.
  unfold converts, discount_amount.
  destruct (converted_goods env products) as [goods | e].
  - destruct (minor_units env (get_default payment "total_amount" (PInt 0)))
      as [value | e].
    + cbv zeta. destruct (truthy_dict discount); cbn [andb].
      * destruct (eq_str (get (or_empty discount) "discount_type") discount_value).
        -- destruct (minor_units env _) as [z | e].
           ++ split; [intros _; repeat split; eauto | intros _; eexists; reflexivity].
           ++ split; [intros [r H]; discriminate | intros [_ H]; discriminate].
        -- split; [intros _; repeat split; eauto | intros _; eexists; reflexivity].
      * split; [intros _; repeat split; eauto | intros _; eexists; reflexivity].
    + split; [intros [r H]; discriminate | intros [[_ H] _]; discriminate].
  - split; [intros [r H]; discriminate | intros [[[gs H] _] _]; discriminate].
Qed.

Lemma built_receipt_has_goods cashier order_id client products discount payment
      (w w1 : World) (receipt : pydict) :
  build_receipt env cashier order_id client products discount payment w
    = (Returned receipt, w1) ->
  has_key "goods" receipt = true /\ receipt <> [].
Proof.
  rewrite build_receipt_run.
  destruct (converted_goods env products); [| discriminate].
  destruct (minor_units env _); [| discriminate].
  cbv zeta. destruct (truthy_dict discount).
  - destruct (discount_amount env _); [| discriminate].
    intros H. injection H as <- _. split; [reflexivity | discriminate].
  - intros H. injection H as <- _. split; [reflexivity | discriminate].
Qed.

(** [create_receipt] once the receipt is built. *)
Lemma create_receipt_run
      token cashier order_id client products discount payment relation_id
      (w w1 : World) (receipt : pydict) :
  build_receipt env cashier order_id client products discount payment w
    = (Returned receipt, w1) ->
  create_receipt env self token cashier order_id client products discount payment
                 relation_id w =
  let headers := Some [("Authorization", "Bearer " ++ token)] in
  if eq_str (get payment "payment_method") prepayment then
    _request env self "POST" "prepayment-receipts" headers None (Some receipt) w1
  else if eq_str (get payment "payment_method") postpaid then
    if negb (truthy_str relation_id) then
      (_error 400 "Bad request"
              (PDict [("detail", PStr "relation_id is required for POSTPAID")]), w1)
    else
      _request env self "POST"
               ("prepayment-receipts/" ++ py_str env (of_opt_str relation_id))
               headers None (Some (dict_without "goods" receipt)) w1
  else
    _request env self "POST" "receipts/sell" headers None (Some receipt) w1.
Proof.
  intros H. unfold create_receipt. unfold bind at 1. rewrite H. cbv zeta.
  destruct (eq_str (get payment "payment_method") prepayment); [reflexivity |].
  destruct (eq_str (get payment "payment_method") postpaid); [| reflexivity].
  destruct (negb (truthy_str relation_id)); reflexivity.
Qed.

Lemma create_receipt_raised
      token cashier order_id client products discount payment relation_id
      (w w1 : World) (e : pyexn) :
  build_receipt env cashier order_id client products discount payment w
    = (Raised e, w1) ->
  create_receipt env self token cashier order_id client products discount payment
                 relation_id w = (Raised e, w1).
Proof.
  intros H. unfold create_receipt. unfold bind at 1. rewrite H. reflexivity.
Qed.

Lemma build_receipt_returned_world cashier order_id client products discount payment
      (w w1 : World) (receipt : pydict) :
  build_receipt env cashier order_id client products discount payment w
    = (Returned receipt, w1) ->
  w1 = after_uuid w.
Proof.
  rewrite build_receipt_run.
  destruct (converted_goods env products); [| discriminate].
  destruct (minor_units env _); [| discriminate].
  cbv zeta. destruct (truthy_dict discount).
  - destruct (discount_amount env _); [| discriminate].
    intros H. injection H as _ <-. reflexivity.
  - intros H. injection H as _ <-. reflexivity.
Qed.

(** What a call comes to: an exception out of the conversion of an amount,
    a Bad-request record, or one run of [_request]; the first two hand
    nothing to the session. *)
Lemma perform_cases (c : Call) (w : World) :
  (exists e w1,
      perform env self c w = (Raised e, w1)
      /\ net_calls w1 = net_calls w
      /\ call_amounts_convert env c = false)
  \/
  (exists detail w1,
      perform env self c w =
        (Returned (failure 400 "Bad request" [("detail", PStr detail)]), w1)
      /\ net_calls w1 = net_calls w
      /\ call_amounts_convert env c = true)
  \/
  (exists method endpoint headers params body w1,
      perform env self c w = _request env self method endpoint headers params body w1
      /\ net_calls w1 = net_calls w
      /\ call_amounts_convert env c = true).
Proof.
  destruct c as [login password | lk tok | tok sid | lk tok sid
                 | tok cashier oid client products discount payment rid];
    cbn [perform call_amounts_convert].
  - unfold cashier_signin.
    destruct (negb (truthy_str login) || negb (truthy_str password)).
    + right; left. exists "login and password are required", w.
      split; [reflexivity |]. split; reflexivity.
    + right; right. do 5 eexists. exists w.
      split; [reflexivity |]. split; reflexivity.
  - right; right. do 5 eexists. exists (after_uuid w).
    split; [reflexivity |]. split; reflexivity.
  - right; right. do 5 eexists. exists w.
    split; [reflexivity |]. split; reflexivity.
  - right; right. do 5 eexists. exists w.
    split; [reflexivity |]. split; reflexivity.
  - pose proof (build_receipt_quiet cashier oid client products discount payment w)
      as Hquiet.
    cbv zeta in Hquiet. destruct Hquiet as [Hcalls _].
    destruct (build_receipt env cashier oid client products discount payment w)
      as [[receipt | e] w1] eqn:Hbuild; cbn [snd] in Hcalls.
    + assert (Hconv : amounts_convert env products discount payment = true).
      { apply (build_receipt_returns cashier oid client products discount payment w).
        exists receipt. rewrite Hbuild.
        rewrite (build_receipt_returned_world _ _ _ _ _ _ _ _ _ Hbuild). reflexivity. }
      rewrite (create_receipt_run tok _ _ _ _ _ _ rid _ _ _ Hbuild). cbv zeta.
      destruct (eq_str (get payment "payment_method") prepayment).
      { right; right. do 5 eexists. exists w1.
        split; [reflexivity |]. split; [exact Hcalls | exact Hconv]. }
      destruct (eq_str (get payment "payment_method") postpaid).
      * destruct (negb (truthy_str rid)).
        -- right; left. exists "relation_id is required for POSTPAID", w1.
           split; [reflexivity |]. split; [exact Hcalls | exact Hconv].
        -- right; right. do 5 eexists. exists w1.
           split; [reflexivity |]. split; [exact Hcalls | exact Hconv].
      * right; right. do 5 eexists. exists w1.
        split; [reflexivity |]. split; [exact Hcalls | exact Hconv].
    + left. exists e, w1.
      split; [apply create_receipt_raised; exact Hbuild |].
      split; [exact Hcalls |].
      destruct (amounts_convert env products discount payment) eqn:Hconv;
        [| reflexivity].
      apply (build_receipt_returns cashier oid client products discount payment w)
        in Hconv.
      destruct Hconv as [r Hr]. rewrite Hr in Hbuild. discriminate.
Qed.

End Builder.

(* ===================================================================== *)
(** * Rounding *)
(* ===================================================================== *)

Section Rounding.

(** [nearest_even m e] is an integer nearest to [m * 2^e]. *)
Lemma nearest_even_nearest (m : positive) (e : Z) :
  e < 0 ->
  2 * Z.abs (nearest_even m e * 2 ^ (- e) - Z.pos m) <= 2 ^ (- e).
Proof.
  intros He. unfold nearest_even.
  destruct (0 <=? e) eqn:E; [apply Z.leb_le in E; lia |].
  cbv zeta.
  assert (Hd : 0 < 2 ^ (- e)) by (apply Z.pow_pos_nonneg; lia).
  pose proof (Z.div_mod (Z.pos m) (2 ^ (- e)) ltac:(lia)) as Hdm.
  pose proof (Z.mod_pos_bound (Z.pos m) (2 ^ (- e)) Hd) as Hr.
  set (d := 2 ^ (- e)) in *.
  set (q := Z.pos m / d) in *. set (r := Z.pos m mod d) in *.
  clearbody q r d.
  assert (Hdown : q * d - Z.pos m = - r) by (rewrite Hdm at 1; ring).
  assert (Hup : (q + 1) * d - Z.pos m = d - r) by (rewrite Hdm at 1; ring).
  destruct (2 * r ?= d) eqn:C.
  - apply Z.compare_eq in C.
    destruct (Z.even q); [rewrite Hdown | rewrite Hup]; lia.
  - pose proof (proj1 (Z.compare_lt_iff _ _) C) as Hlt. rewrite Hdown. lia.
  - pose proof (proj1 (Z.compare_gt_iff _ _) C) as Hgt. rewrite Hup. lia.
Qed.

(** On a tie the even neighbour is chosen. *)
Lemma nearest_even_tie (m : positive) (e : Z) :
  e < 0 ->
  2 * (Z.pos m mod 2 ^ (- e)) = 2 ^ (- e) ->
  Z.even (nearest_even m e) = true.
Proof.
  intros He Htie. unfold nearest_even.
  destruct (0 <=? e) eqn:E; [apply Z.leb_le in E; lia |].
  cbv zeta. rewrite Htie, Z.compare_refl.
  destruct (Z.even (Z.pos m / 2 ^ (- e))) eqn:Ev; [exact Ev |].
  rewrite Z.add_1_r, Z.even_succ, <- Z.negb_even, Ev. reflexivity.
Qed.

(** An amount converts exactly when [float] accepts it and its hundredfold
    is finite. *)
Lemma converts_spec (env : Env) (v : pyval) :
  converts env v = true <->
  exists f, py_float env v = Returned f /\ finite (f * 100)%float = true.
Proof.
  unfold converts, minor_units, Py.round, finite.
  destruct (py_float env v) as [f | e].
  - split.
    + intros H. exists f. split; [reflexivity |].
      destruct (Prim2SF (f * 100)%float); first [reflexivity | discriminate].
    + intros [f' [Hf H]]. injection Hf as <-.
      destruct (Prim2SF (f * 100)%float); first [reflexivity | discriminate].
  - split; [discriminate | intros [f [Hf _]]; discriminate].
Qed.

(** Ties go to the even integer, as Python 3 rounds. *)
Example round_ties :
  Py.round 0.5%float = Returned 0 /\ Py.round 1.5%float = Returned 2
  /\ Py.round 2.5%float = Returned 2 /\ Py.round (-3.5)%float = Returned (-4)
  /\ Py.round (0.125 * 100)%float = Returned 12
  /\ Py.round (10.005 * 100)%float = Returned 1001.
Proof. vm_compute. repeat split. Qed.

(** What [round] refuses. *)
Example round_raises :
  Py.round infinity = Raised OverflowError /\ Py.round nan = Raised ValueError
  /\ Py.round (1e308 * 100)%float = Raised OverflowError.
Proof. vm_compute. repeat split. Qed.

End Rounding.

(* ===================================================================== *)
(** * The claims *)
(* ===================================================================== *)

Section Claims.
Context (env : Env) (self : CheckboxAPI).

(** A response in the hands of [_request]: [success] is true exactly on a
    status in 200..299, where [_request] returns the parsed body (or the
    raw text) as [data]. *)
Lemma _request_success_iff_2xx
        method endpoint headers params body (r : Response) (w : World) :
  session_request env (request_kwargs self method endpoint headers params body)
    = Responded r ->
  (forall res w',
      _request env self method endpoint headers params body w = (Returned res, w') ->
      (dict_get "success" res = Some (PBool true) <-> 200 <= status_code r < 300) /\
      (dict_get "success" res = Some (PBool false) <-> ~ 200 <= status_code r < 300))
  /\
  (200 <= status_code r < 300 ->
   exists res,
     _request env self method endpoint headers params body w =
       (Returned res,
        after_call w (request_kwargs self method endpoint headers params body)) /\
     dict_get "success" res = Some (PBool true) /\
     dict_get "status" res = Some (PInt (status_code r)) /\
     (forall v, json r = Some v -> dict_get "data" res = Some v) /\
     (json r = None -> dict_get "data" res = Some (PDict [("raw", PStr (text r))]))).
Proof.
  intros Hsend. split.
  - intros res w'. rewrite _request_run. cbv zeta. rewrite Hsend.
    destruct (raise_for_status r) as [e |] eqn:Eraise.
    + intros Hres. apply except_HTTPError_returned in Hres.
      assert (Herr : 400 <= status_code r < 600).
      { destruct (Z_le_dec 400 (status_code r)) as [H1 | H1];
          destruct (Z_lt_dec (status_code r) 600) as [H2 | H2]; try lia;
            rewrite raise_for_status_none in Eraise by lia; discriminate. }
      rewrite Hres. split; split; intros H; try discriminate; try lia; reflexivity.
    + intros Hres. injection Hres as <- _.
      change (dict_get "success" (_parse r))
        with (Some (PBool ((200 <=? status_code r) && (status_code r <? 300)))).
      rewrite <- in_2xx_reflect.
      destruct ((200 <=? status_code r) && (status_code r <? 300));
        split; split; intros H; try discriminate; try reflexivity; try congruence.
  - intros H2xx. rewrite _request_run. cbv zeta. rewrite Hsend.
    rewrite raise_for_status_none by lia.
    exists (_parse r). split; [reflexivity |].
    change (dict_get "success" (_parse r))
      with (Some (PBool ((200 <=? status_code r) && (status_code r <? 300)))).
    apply in_2xx_reflect in H2xx. rewrite H2xx.
    split; [reflexivity |]. split; [reflexivity |].
    unfold _parse. split.
    + intros v Hv. rewrite Hv. reflexivity.
    + intros Hn. rewrite Hn. reflexivity.
Qed.
(** C1. Whatever response the session hands to [_request], a returned
    result has [success] true exactly when the status code lies in
    200..299; on such a status [_request] does return, with [data] the
    parsed JSON body itself when the body parses, and [{raw: text}] when it
    does not. The same holds of every operation that hands a request to
    the session, since each returns what [_request] returns. *)
Theorem c1_success_iff_2xx :
  (forall method endpoint headers params body (r : Response) (w : World),
      session_request env (request_kwargs self method endpoint headers params body)
        = Responded r ->
      (forall res w',
          _request env self method endpoint headers params body w = (Returned res, w') ->
          (dict_get "success" res = Some (PBool true) <-> 200 <= status_code r < 300) /\
          (dict_get "success" res = Some (PBool false) <-> ~ 200 <= status_code r < 300))
      /\
      (200 <= status_code r < 300 ->
       exists res,
         _request env self method endpoint headers params body w =
           (Returned res,
            after_call w (request_kwargs self method endpoint headers params body)) /\
         dict_get "success" res = Some (PBool true) /\
         dict_get "status" res = Some (PInt (status_code r)) /\
         (forall v, json r = Some v -> dict_get "data" res = Some v) /\
         (json r = None -> dict_get "data" res = Some (PDict [("raw", PStr (text r))]))))
  /\
  (forall (r : Response),
      (forall rq, session_request env rq = Responded r) ->
      forall (c : Call) (w : World),
        (forall res w',
            perform env self c w = (Returned res, w') ->
            net_calls w' <> net_calls w ->
            (dict_get "success" res = Some (PBool true) <-> 200 <= status_code r < 300))
        /\
        (200 <= status_code r < 300 ->
         call_amounts_convert env c = true ->
         exists res w',
           perform env self c w = (Returned res, w') /\
           (net_calls w' <> net_calls w ->
            dict_get "success" res = Some (PBool true) /\
            (forall v, json r = Some v -> dict_get "data" res = Some v) /\
            (json r = None ->
             dict_get "data" res = Some (PDict [("raw", PStr (text r))]))))).
Proof.
  split; [exact _request_success_iff_2xx |].
  intros r Hall c w.
  destruct (perform_cases env self c w)
    as [(e & w1 & Hp & _ & Hconv)
       | [(detail & w1 & Hp & Hcalls & _)
         | (method & endpoint & headers & params & body & w1 & Hp & _ & _)]].
  - split.
    + intros res w' H. rewrite Hp in H. discriminate.
    + intros _ Hc. rewrite Hconv in Hc. discriminate.
  - split.
    + intros res w' H Hne. rewrite Hp in H. injection H as _ <-. contradiction.
    + intros _ _. eexists. exists w1. split; [exact Hp |].
      intros Hne. contradiction.
  - destruct (_request_success_iff_2xx method endpoint headers params body r w1
                                       (Hall _)) as [H1 H2].
    split.
    + intros res w' H _. rewrite Hp in H. apply (H1 res w' H).
    + intros H2xx _. destruct (H2 H2xx) as (res & Hrun & Hs & _ & Hd1 & Hd2).
      exists res. eexists. split; [rewrite Hp; exact Hrun |].
      intros _. split; [exact Hs |]. split; [exact Hd1 | exact Hd2].
Qed.


(** C3, as amended. On a response with a status in 400..599 whose body
    is a JSON object or is not JSON at all, [_request] returns the
    failure record: [success] false, the status of the response, [error]
    and, unless the object has a truthy [message], [error_description]
    both "HTTP error", and [data] the object (or [{raw: text}]). An
    [HTTPError] that carries no response gives status 400 and
    [{raw: str(e)}]. On any other status outside 200..299 the result has
    [success] false, the status and the data, and no [error] field. *)
Theorem c3_http_error_result
        method endpoint headers params body (w : World) :
  let rq := request_kwargs self method endpoint headers params body in
  (forall r d,
      session_request env rq = Responded r ->
      400 <= status_code r < 600 ->
      (json r = Some (PDict d) \/ (json r = None /\ d = [("raw", PStr (text r))])) ->
      exists line,
        _request env self method endpoint headers params body w =
          (Returned [("success", PBool false);
                     ("status", PInt (status_code r));
                     ("error", PStr "HTTP error");
                     ("error_description", description_of "HTTP error" d);
                     ("data", PDict d)],
           after_log (after_call w rq) line))
  /\
  (forall msg,
      session_request env rq = RaisedHTTPError (mkHTTPError msg None) ->
      _request env self method endpoint headers params body w =
        (Returned [("success", PBool false);
                   ("status", PInt 400);
                   ("error", PStr "HTTP error");
                   ("error_description", PStr "HTTP error");
                   ("data", PDict [("raw", PStr msg)])],
         after_log (after_call w rq) ("Checkbox HTTP error: " ++ msg)))
  /\
  (forall r,
      session_request env rq = Responded r ->
      ~ 200 <= status_code r < 300 ->
      ~ 400 <= status_code r < 600 ->
      exists data,
        _request env self method endpoint headers params body w =
          (Returned [("success", PBool false);
                     ("status", PInt (status_code r));
                     ("data", data)],
           after_call w rq) /\
        (forall v, json r = Some v -> data = v) /\
        (json r = None -> data = PDict [("raw", PStr (text r))])).
Proof.
  intros rq. split; [| split].
  - intros r d Hsend Hst Hbody.
    rewrite _request_run. cbv zeta. fold rq. rewrite Hsend.
    destruct (raise_for_status_some r Hst) as [msg Hraise]. rewrite Hraise.
    exists ("Checkbox HTTP error: " ++ msg).
    rewrite (except_HTTPError_dict msg r d _ Hbody). reflexivity.
  - intros msg Hsend.
    rewrite _request_run. cbv zeta. fold rq. rewrite Hsend. reflexivity.
  - intros r Hsend Hn2 Hn4.
    rewrite _request_run. cbv zeta. fold rq. rewrite Hsend.
    rewrite raise_for_status_none by exact Hn4.
    exists (match json r with
            | Some v => v
            | None => PDict [("raw", PStr (text r))]
            end).
    split; [| split].
    + unfold _parse.
      assert (E : (200 <=? status_code r) && (status_code r <? 300) = false).
      { destruct ((200 <=? status_code r) && (status_code r <? 300)) eqn:E;
          [| reflexivity].
        apply in_2xx_reflect in E. contradiction. }
      rewrite E. reflexivity.
    + intros v Hv. rewrite Hv. reflexivity.
    + intros Hv. rewrite Hv. reflexivity.
Qed.

(** A [RequestException] other than an [HTTPError] in the hands of
    [_request]. *)
Lemma _request_network_error
        method endpoint headers params body (msg : string) (w : World) :
  session_request env (request_kwargs self method endpoint headers params body)
    = RaisedRequestException msg ->
  _request env self method endpoint headers params body w =
    (Returned [("success", PBool false);
               ("status", PInt 400);
               ("error", PStr "Network error");
               ("error_description", PStr "Network error");
               ("data", PDict [("detail", PStr msg)])],
     after_log (after_call w (request_kwargs self method endpoint headers params body))
               ("Checkbox network error: " ++ msg)).
Proof.
  intros Hsend. rewrite _request_run. cbv zeta. rewrite Hsend. reflexivity.
Qed.
(** C4. When the session raises a [RequestException] other than an
    [HTTPError] (no response was obtained), [_request] returns the failure
    record with status 400, [error] and [error_description] "Network
    error", and [data] [{detail: str(e)}]; so does every operation that
    hands its request to such a session. *)
Theorem c4_network_error_result :
  (forall method endpoint headers params body (msg : string) (w : World),
      session_request env (request_kwargs self method endpoint headers params body)
        = RaisedRequestException msg ->
      _request env self method endpoint headers params body w =
        (Returned [("success", PBool false);
                   ("status", PInt 400);
                   ("error", PStr "Network error");
                   ("error_description", PStr "Network error");
                   ("data", PDict [("detail", PStr msg)])],
         after_log (after_call w (request_kwargs self method endpoint headers params body))
                   ("Checkbox network error: " ++ msg)))
  /\
  (forall (msg : string),
      (forall rq, session_request env rq = RaisedRequestException msg) ->
      forall (c : Call) (w : World),
        call_amounts_convert env c = true ->
        exists res w',
          perform env self c w = (Returned res, w') /\
          (net_calls w' <> net_calls w ->
           res = [("success", PBool false);
                  ("status", PInt 400);
                  ("error", PStr "Network error");
                  ("error_description", PStr "Network error");
                  ("data", PDict [("detail", PStr msg)])])).
Proof.
  split; [exact _request_network_error |].
  intros msg Hall c w Hconv.
  destruct (perform_cases env self c w)
    as [(e & w1 & _ & _ & Hno)
       | [(detail & w1 & Hp & Hcalls & _)
         | (method & endpoint & headers & params & body & w1 & Hp & _ & _)]].
  - rewrite Hconv in Hno. discriminate.
  - eexists. exists w1. split; [exact Hp |]. intros Hne. contradiction.
  - rewrite Hp.
    rewrite (_request_network_error method endpoint headers params body msg w1 (Hall _)).
    eexists. eexists. split; [reflexivity |]. intros _. reflexivity.
Qed.

(** C5. Once the receipt is built, the payment method alone chooses the
    endpoint and the body of the one request posted: "PREPAYMENT" posts
    the whole receipt, goods included, to [prepayment-receipts];
    "POSTPAID" with a relation id posts the receipt without its [goods]
    field, every other field as it was, to
    [prepayment-receipts/<relation_id>]; any other value posts the whole
    receipt to [receipts/sell]. *)
Theorem c5_endpoint_by_payment_method
        token cashier order_id client products discount payment relation_id
        (w w1 : World) (receipt : pydict) :
  build_receipt env cashier order_id client products discount payment w
    = (Returned receipt, w1) ->
  let posted (endpoint : string) (body : pydict) :=
    exists rq,
      net_calls (snd (create_receipt env self token cashier order_id client products
                                     discount payment relation_id w))
        = (net_calls w ++ [rq])%list
      /\ req_method rq = "POST"
      /\ req_url rq = api_url (cfg self) ++ api_version (cfg self) ++ "/" ++ endpoint
      /\ req_json rq = body in
  (get payment "payment_method" = PStr "PREPAYMENT" ->
   posted "prepayment-receipts" receipt /\ has_key "goods" receipt = true)
  /\
  (get payment "payment_method" = PStr "POSTPAID" ->
   forall rid, relation_id = Some rid -> rid <> "" ->
     posted ("prepayment-receipts/" ++ rid) (dict_without "goods" receipt)
     /\ has_key "goods" (dict_without "goods" receipt) = false
     /\ (forall k, k <> "goods" ->
           dict_get k (dict_without "goods" receipt) = dict_get k receipt))
  /\
  (get payment "payment_method" <> PStr "PREPAYMENT" ->
   get payment "payment_method" <> PStr "POSTPAID" ->
   posted "receipts/sell" receipt /\ has_key "goods" receipt = true).
Proof.
  intros Hbuild posted.
  pose proof (build_receipt_quiet env cashier order_id client products discount
                                  payment w) as Hquiet.
  rewrite Hbuild in Hquiet. cbv zeta in Hquiet. cbn [snd] in Hquiet.
  destruct Hquiet as [Hcalls _].
  destruct (built_receipt_has_goods env _ _ _ _ _ _ _ _ _ Hbuild) as [Hgoods _].
  unfold posted.
  rewrite (create_receipt_run env self token _ _ _ _ _ _ relation_id _ _ _ Hbuild). cbv zeta.
  split; [| split].
  - intros Hpm. rewrite Hpm.
    change (eq_str (PStr "PREPAYMENT") prepayment) with true. cbv iota.
    split; [| exact Hgoods].
    eexists. rewrite _request_net_calls, Hcalls.
    split; [reflexivity |]. split; [reflexivity |]. split; reflexivity.
  - intros Hpm rid -> Hrid. rewrite Hpm.
    change (eq_str (PStr "POSTPAID") prepayment) with false.
    change (eq_str (PStr "POSTPAID") postpaid) with true. cbv iota.
    assert (Et : negb (truthy_str (Some rid)) = false).
    { cbn [truthy_str]. apply negb_false_iff, negb_true_iff.
      apply String.eqb_neq. exact Hrid. }
    rewrite Et. split; [| split].
    + eexists. rewrite _request_net_calls, Hcalls.
      split; [reflexivity |]. split; [reflexivity |]. split; reflexivity.
    + unfold has_key. rewrite dict_get_without_same. reflexivity.
    + intros k Hk. apply dict_get_without_other. exact Hk.
  - intros Hpre Hpost. unfold prepayment, postpaid.
    rewrite (eq_str_false _ _ Hpre), (eq_str_false _ _ Hpost).
    split; [| exact Hgoods].
    eexists. rewrite _request_net_calls, Hcalls.
    split; [reflexivity |]. split; [reflexivity |]. split; reflexivity.
Qed.



(** C8. A sign-in whose login or password is missing or empty returns
    the Bad-request record with status 400 and the missing-field message
    in [data], and leaves the world as it was: no request is handed to
    the session. *)
Theorem c8_signin_requires_credentials
        (login password : option string) (w : World) :
  login = None \/ login = Some "" \/ password = None \/ password = Some "" ->
  cashier_signin env self login password w =
    (Returned [("success", PBool false);
               ("status", PInt 400);
               ("error", PStr "Bad request");
               ("error_description", PStr "Bad request");
               ("data", PDict [("detail", PStr "login and password are required")])],
     w)
  /\ net_calls (snd (cashier_signin env self login password w)) = net_calls w.
Proof.
  intros H.
  assert (E : negb (truthy_str login) || negb (truthy_str password) = true).
  { destruct H as [-> | [-> | [-> | ->]]]; try reflexivity;
      apply orb_true_iff; right; reflexivity. }
  unfold cashier_signin. rewrite E. split; reflexivity.
Qed.

(** C9, as amended. The built receipt has a [discounts] field exactly
    when a non-empty discount dictionary was given; the field then holds
    an array of one entry. No discount, and also an empty dictionary,
    leaves the field out. *)
Theorem c9_discounts_iff_nonempty_discount
        cashier order_id client products discount payment
        (w w' : World) (receipt : pydict) :
  build_receipt env cashier order_id client products discount payment w
    = (Returned receipt, w') ->
  (has_key "discounts" receipt = true <-> exists d, discount = Some d /\ d <> [])
  /\ (discount = None \/ discount = Some [] -> dict_get "discounts" receipt = None)
  /\ (has_key "discounts" receipt = true ->
      exists entry, dict_get "discounts" receipt = Some (PList [entry])).
Proof.
  rewrite build_receipt_run.
  destruct (converted_goods env products) as [goods | e]; [| discriminate].
  destruct (minor_units env _) as [value | e]; [| discriminate].
  cbv zeta. destruct (truthy_dict discount) eqn:Et.
  - destruct (discount_amount env (or_empty discount)) as [dv | e]; [| discriminate].
    intros H. injection H as <- _. split; [| split].
    + split; [intros _; apply truthy_dict_iff; exact Et | reflexivity].
    + intros [-> | ->]; discriminate.
    + intros _. eexists. reflexivity.
  - intros H. injection H as <- _. split; [| split].
    + split; [discriminate |].
      intros H. apply truthy_dict_iff in H. congruence.
    + intros _. reflexivity.
    + discriminate.
Qed.

(** C10. For a discount whose [discount_type] is anything but "VALUE"
    (another string, another value, or none at all), the entry emitted
    carries the [discount_amount] as it was given, not converted, and
    the [discount_type] as it was given in [mode]; the entry is emitted
    whenever the dictionary is not empty. *)
Theorem c10_other_types_pass_through
        cashier order_id client products (d : pydict) payment
        (w w' : World) (receipt : pydict) :
  get d "discount_type" <> PStr "VALUE" ->
  build_receipt env cashier order_id client products (Some d) payment w
    = (Returned receipt, w') ->
  discount_amount env d = Returned (get d "discount_amount")
  /\ (d <> [] ->
      dict_get "discounts" receipt =
        Some (PList [PDict [("type", PStr "DISCOUNT");
                            ("mode", get d "discount_type");
                            ("value", get d "discount_amount");
                            ("name", PStr "Знижка")]]))
  /\ (d = [] -> dict_get "discounts" receipt = None).
Proof.
  intros Hty. apply eq_str_false in Hty.
  assert (Hamount : discount_amount env d = Returned (get d "discount_amount")).
  { unfold discount_amount, discount_value. rewrite Hty. reflexivity. }
  rewrite build_receipt_run.
  destruct (converted_goods env products) as [goods | e]; [| discriminate].
  destruct (minor_units env _) as [value | e]; [| discriminate].
  cbv zeta. cbn [or_empty]. rewrite Hamount.
  destruct d as [| kv d'].
  - cbn [truthy_dict]. intros H. injection H as <- _.
    split; [first [exact Hamount | reflexivity] |].
    split; [intros H; contradiction | reflexivity].
  - cbn [truthy_dict]. intros H. injection H as <- _.
    split; [first [exact Hamount | reflexivity] |].
    split; [reflexivity | discriminate].
Qed.

End Claims.

(* ===================================================================== *)
(** * Concrete runs *)
(* ===================================================================== *)

(** The receipt of the scenario, with a discount of type "VALUE". *)
Lemma scenario_receipt (method : string) :
  build_receipt Scenario.offline "Ann" 12 Scenario.client
                [Scenario.tea (PFloat 19.99)] (Some Scenario.value_discount)
                (Scenario.payment method) Scenario.idle
  = (Returned (Scenario.receipt_with "VALUE" 550), after_uuid Scenario.idle).
Proof. vm_compute. reflexivity. Qed.

(** The receipt of the scenario, with a discount of type "PERCENT". *)
Lemma scenario_percent_receipt :
  build_receipt Scenario.offline "Ann" 12 Scenario.client
                [Scenario.tea (PFloat 19.99)] (Some Scenario.percent_discount)
                (Scenario.payment "FULL") Scenario.idle
  = (Returned (Scenario.receipt_with "PERCENT" 10), after_uuid Scenario.idle).
Proof. vm_compute. reflexivity. Qed.

(** An HTTP error whose JSON body is a list: [.get] does not exist on it,
    and the [AttributeError] leaves [_request]. *)
Example http_error_list_body_raises :
  fst (status_shift (Scenario.answering Scenario.server_error_list) Scenario.api
                    "token" "7" Scenario.idle)
  = Raised AttributeError.
Proof. vm_compute. reflexivity. Qed.

(** An HTTP error whose JSON body is the empty list: [payload or {}]
    replaces it, and [data] is the empty object. *)
Example http_error_empty_list_body :
  fst (status_shift (Scenario.answering Scenario.server_error_empty_list) Scenario.api
                    "token" "7" Scenario.idle)
  = Returned [("success", PBool false);
              ("status", PInt 500);
              ("error", PStr "HTTP error");
              ("error_description", PStr "HTTP error");
              ("data", PDict [])].
Proof. vm_compute. reflexivity. Qed.

(** An HTTP error whose [message] is the empty string: [error_description]
    is the error, not the message. *)
Example http_error_empty_message :
  fst (status_shift (Scenario.answering Scenario.bad_request_empty_message) Scenario.api
                    "token" "7" Scenario.idle)
  = Returned [("success", PBool false);
              ("status", PInt 400);
              ("error", PStr "HTTP error");
              ("error_description", PStr "HTTP error");
              ("data", PDict [("message", PStr "")])].
Proof. vm_compute. reflexivity. Qed.

(** A 200 response with the JSON body [[1, 2]]. *)
Lemma c1_witness :
  session_request (Scenario.answering Scenario.ok_list)
                  (request_kwargs Scenario.api "GET" "shifts/7" None None None)
    = Responded Scenario.ok_list
  /\ exists res,
      fst (_request (Scenario.answering Scenario.ok_list) Scenario.api
                    "GET" "shifts/7" None None None Scenario.idle) = Returned res
      /\ dict_get "success" res = Some (PBool true)
      /\ dict_get "data" res = Some (PList [PInt 1; PInt 2]).
Proof.
  split; [reflexivity |].
  destruct (c1_success_iff_2xx (Scenario.answering Scenario.ok_list) Scenario.api)
    as [Hrequest _].
  destruct (Hrequest "GET" "shifts/7" None None None
                     Scenario.ok_list Scenario.idle eq_refl) as [_ H].
  assert (H2xx : 200 <= status_code Scenario.ok_list < 300)
    by (unfold Scenario.ok_list; cbn [status_code]; lia).
  destruct (H H2xx) as [res [Hrun [Hsuccess [_ [Hdata _]]]]].
  exists res. split; [rewrite Hrun; reflexivity |].
  split; [exact Hsuccess | apply Hdata; reflexivity].
Defined.



(** C3, as stated, fails: a 304 response raises nothing in
    [raise_for_status], and its result has no [error] field. *)
Lemma c3_counterexample :
  ~ 200 <= status_code Scenario.not_modified < 300
  /\ fst (status_shift (Scenario.answering Scenario.not_modified) Scenario.api
                       "token" "7" Scenario.idle)
     = Returned [("success", PBool false);
                 ("status", PInt 304);
                 ("data", PDict [("raw", PStr "")])]
  /\ dict_get "error" [("success", PBool false);
                       ("status", PInt 304);
                       ("data", PDict [("raw", PStr "")])] = None.
Proof.
  split; [unfold Scenario.not_modified; cbn [status_code]; lia |].
  split; vm_compute; reflexivity.
Qed.

(** A 404 response with the JSON body [{}]. *)
Lemma c3_witness :
  session_request (Scenario.answering Scenario.not_found)
                  (request_kwargs Scenario.api "GET" "shifts/7" None None None)
    = Responded Scenario.not_found
  /\ 400 <= status_code Scenario.not_found < 600
  /\ json Scenario.not_found = Some (PDict [])
  /\ fst (_request (Scenario.answering Scenario.not_found) Scenario.api
                   "GET" "shifts/7" None None None Scenario.idle)
     = Returned [("success", PBool false);
                 ("status", PInt 404);
                 ("error", PStr "HTTP error");
                 ("error_description", PStr "HTTP error");
                 ("data", PDict [])].
Proof.
  assert (Hst : 400 <= status_code Scenario.not_found < 600)
    by (unfold Scenario.not_found; cbn [status_code]; lia).
  split; [reflexivity |]. split; [exact Hst |]. split; [reflexivity |].
  destruct (c3_http_error_result (Scenario.answering Scenario.not_found) Scenario.api
                                 "GET" "shifts/7" None None None Scenario.idle)
    as [H _].
  destruct (H Scenario.not_found [] eq_refl Hst (or_introl eq_refl)) as [line Hrun].
  rewrite Hrun. reflexivity.
Defined.

(** A refused connection. *)
Lemma c4_witness :
  session_request Scenario.offline
                  (request_kwargs Scenario.api "GET" "shifts/7" None None None)
    = RaisedRequestException "Connection refused"
  /\ fst (_request Scenario.offline Scenario.api "GET" "shifts/7" None None None
                   Scenario.idle)
     = Returned [("success", PBool false);
                 ("status", PInt 400);
                 ("error", PStr "Network error");
                 ("error_description", PStr "Network error");
                 ("data", PDict [("detail", PStr "Connection refused")])].
Proof.
  split; [reflexivity |].
  rewrite (proj1 (c4_network_error_result Scenario.offline Scenario.api)
                 "GET" "shifts/7" None None None
                 "Connection refused" Scenario.idle eq_refl).
  reflexivity.
Defined.

(** "POSTPAID" with the relation id "abc". *)
Lemma c5_witness :
  build_receipt Scenario.offline "Ann" 12 Scenario.client
                [Scenario.tea (PFloat 19.99)] (Some Scenario.value_discount)
                (Scenario.payment "POSTPAID") Scenario.idle
    = (Returned (Scenario.receipt_with "VALUE" 550), after_uuid Scenario.idle)
  /\ exists rq,
      net_calls (snd (create_receipt Scenario.offline Scenario.api "token" "Ann" 12
                                     Scenario.client [Scenario.tea (PFloat 19.99)]
                                     (Some Scenario.value_discount)
                                     (Scenario.payment "POSTPAID") (Some "abc")
                                     Scenario.idle))
        = [rq]
      /\ req_url rq = "https://api.checkbox.ua/api/v1/prepayment-receipts/abc"
      /\ req_json rq = dict_without "goods" (Scenario.receipt_with "VALUE" 550).
Proof.
  split; [apply scenario_receipt |].
  destruct (c5_endpoint_by_payment_method
              Scenario.offline Scenario.api "token" "Ann" 12 Scenario.client
              [Scenario.tea (PFloat 19.99)] (Some Scenario.value_discount)
              (Scenario.payment "POSTPAID") (Some "abc")
              Scenario.idle (after_uuid Scenario.idle)
              (Scenario.receipt_with "VALUE" 550)
              (scenario_receipt "POSTPAID")) as [_ [H _]].
  destruct (H eq_refl "abc" eq_refl ltac:(discriminate))
    as [[rq [Hcalls [_ [Hurl Hjson]]]] _].
  exists rq. split; [exact Hcalls |]. split; [exact Hurl | exact Hjson].
Defined.




(** An empty login. *)
Lemma c8_witness :
  cashier_signin Scenario.offline Scenario.api (Some "") (Some "secret") Scenario.idle
  = (Returned [("success", PBool false);
               ("status", PInt 400);
               ("error", PStr "Bad request");
               ("error_description", PStr "Bad request");
               ("data", PDict [("detail", PStr "login and password are required")])],
     Scenario.idle).
Proof.
  exact (proj1 (c8_signin_requires_credentials
                  Scenario.offline Scenario.api (Some "") (Some "secret") Scenario.idle
                  (or_intror (or_introl eq_refl)))).
Defined.

(** C9, as stated, fails: the empty dictionary is a discount input that
    was supplied, and the receipt built has no [discounts] field. *)
Lemma c9_counterexample :
  build_receipt Scenario.offline "Ann" 12 Scenario.client
                [Scenario.tea (PFloat 19.99)] (Some [])
                (Scenario.payment "FULL") Scenario.idle
    = (Returned Scenario.receipt_base, after_uuid Scenario.idle)
  /\ has_key "discounts" Scenario.receipt_base = false.
Proof. split; vm_compute; reflexivity. Qed.

Lemma c9_witness :
  build_receipt Scenario.offline "Ann" 12 Scenario.client
                [Scenario.tea (PFloat 19.99)] (Some Scenario.value_discount)
                (Scenario.payment "FULL") Scenario.idle
    = (Returned (Scenario.receipt_with "VALUE" 550), after_uuid Scenario.idle)
  /\ (has_key "discounts" (Scenario.receipt_with "VALUE" 550) = true <->
      exists d, Some Scenario.value_discount = Some d /\ d <> []).
Proof.
  split; [apply scenario_receipt |].
  exact (proj1 (c9_discounts_iff_nonempty_discount
                  Scenario.offline "Ann" 12 Scenario.client
                  [Scenario.tea (PFloat 19.99)] (Some Scenario.value_discount)
                  (Scenario.payment "FULL") Scenario.idle (after_uuid Scenario.idle)
                  (Scenario.receipt_with "VALUE" 550) (scenario_receipt "FULL"))).
Defined.

(** A discount of 10 percent. *)
Lemma c10_witness :
  get Scenario.percent_discount "discount_type" <> PStr "VALUE"
  /\ build_receipt Scenario.offline "Ann" 12 Scenario.client
                   [Scenario.tea (PFloat 19.99)] (Some Scenario.percent_discount)
                   (Scenario.payment "FULL") Scenario.idle
     = (Returned (Scenario.receipt_with "PERCENT" 10), after_uuid Scenario.idle)
  /\ dict_get "discounts" (Scenario.receipt_with "PERCENT" 10)
     = Some (PList [PDict [("type", PStr "DISCOUNT");
                           ("mode", PStr "PERCENT");
                           ("value", PInt 10);
                           ("name", PStr "Знижка")]]).
Proof.
  assert (Hty : get Scenario.percent_discount "discount_type" <> PStr "VALUE")
    by discriminate.
  split; [exact Hty |]. split; [apply scenario_percent_receipt |].
  destruct (c10_other_types_pass_through
              Scenario.offline "Ann" 12 Scenario.client
              [Scenario.tea (PFloat 19.99)] Scenario.percent_discount
              (Scenario.payment "FULL") Scenario.idle (after_uuid Scenario.idle)
              (Scenario.receipt_with "PERCENT" 10) Hty scenario_percent_receipt)
    as [_ [H _]].
  apply H. discriminate.
Defined.

(* ===================================================================== *)
(** * Further properties: the request that [_request] builds *)
(* ===================================================================== *)

Section Lookup.
Context {V : Type}.

Lemma dict_get_set_same (k : string) (v : V) (d : dict V) :
  dict_get k (dict_set k v d) = Some v.
Proof.
  induction d as [| [k' v'] d IH]; cbn [dict_set dict_get].
  - rewrite String.eqb_refl. reflexivity.
  - destruct (String.eqb k k') eqn:E; cbn [dict_get].
    + rewrite String.eqb_refl. reflexivity.
    + rewrite E. exact IH.
Qed.

Lemma dict_get_set_other (k k0 : string) (v : V) (d : dict V) :
  k0 <> k -> dict_get k0 (dict_set k v d) = dict_get k0 d.
Proof.
  intros Hk. induction d as [| [k' v'] d IH]; cbn [dict_set dict_get].
  - apply String.eqb_neq in Hk. rewrite Hk. reflexivity.
  - destruct (String.eqb k k') eqn:E; cbn [dict_get].
    + apply String.eqb_eq in E. subst k'.
      apply String.eqb_neq in Hk. rewrite Hk. reflexivity.
    + destruct (String.eqb k0 k'); [reflexivity | exact IH].
Qed.

Lemma dict_get_absent (k : string) (d : dict V) :
  ~ In k (map fst d) -> dict_get k d = None.
Proof.
  induction d as [| [k' v'] d IH]; [reflexivity |].
  cbn [map fst In dict_get]. intros H.
  destruct (String.eqb k k') eqn:E.
  - apply String.eqb_eq in E. subst k'. exfalso. apply H. left. reflexivity.
  - apply IH. intros Hin. apply H. right. exact Hin.
Qed.

(** [{**d1, **d2}] looked up: the entry of [d2] when it has one, that of
    [d1] otherwise. *)
Lemma dict_get_update (k : string) (d1 d2 : dict V) :
  NoDup (map fst d2) ->
  dict_get k (dict_update d1 d2) =
  match dict_get k d2 with
  | Some v => Some v
  | None => dict_get k d1
  end.
Proof.
  unfold dict_update. revert d1.
  induction d2 as [| [k2 v2] d2 IH]; intros d1 Hnd; [reflexivity |].
  cbn [map fst] in Hnd. inversion Hnd as [| x l Hnotin Hnd' Heq]. subst x l.
  cbn [fold_left fst snd]. rewrite (IH _ Hnd'). cbn [dict_get].
  destruct (String.eqb k k2) eqn:E.
  - apply String.eqb_eq in E. subst k2.
    rewrite (dict_get_absent k d2 Hnotin). apply dict_get_set_same.
  - destruct (dict_get k d2); [reflexivity |].
    apply dict_get_set_other. apply String.eqb_neq. exact E.
Qed.

End Lookup.

Section RequestLine.
Context (self : CheckboxAPI).

Lemma lstrip_slash_no_leading (s : string) (c : ascii) (rest : string) :
  lstrip_slash s = String c rest -> c <> "/"%char.
Proof.
  induction s as [| c0 s IH]; cbn [lstrip_slash]; [discriminate |].
  destruct (Ascii.eqb c0 "/") eqn:E; [exact IH |].
  intros H. injection H as <- _. apply Ascii.eqb_neq. exact E.
Qed.

Lemma lstrip_slash_decompose (s : string) :
  exists n, s = slashes n ++ lstrip_slash s.
Proof.
  induction s as [| c0 s [n IH]]; [exists O; reflexivity |].
  cbn [lstrip_slash]. destruct (Ascii.eqb c0 "/") eqn:E.
  - apply Ascii.eqb_eq in E. subst c0. exists (S n).
    cbn [slashes append]. rewrite <- IH. reflexivity.
  - exists O. reflexivity.
Qed.

Lemma lstrip_slash_slashes (n : nat) (s : string) :
  lstrip_slash (slashes n ++ s) = lstrip_slash s.
Proof.
  induction n as [| n IH]; [reflexivity |].
  cbn [slashes append lstrip_slash]. exact IH.
Qed.

(** X1. The URL of a request is the API base, the version, one slash and
    the endpoint without its leading slashes: only leading slashes are
    removed, what is left starts with none, and any number of leading
    slashes on the endpoint gives the same request. *)
Theorem x1_url_has_one_separator
        method endpoint headers params body :
  (exists n,
      endpoint = slashes n ++ lstrip_slash endpoint
      /\ req_url (request_kwargs self method endpoint headers params body)
         = api_url (cfg self) ++ api_version (cfg self) ++ "/" ++ lstrip_slash endpoint)
  /\ (forall c rest, lstrip_slash endpoint = String c rest -> c <> "/"%char)
  /\ (forall n,
         request_kwargs self method (slashes n ++ endpoint) headers params body
         = request_kwargs self method endpoint headers params body).
Proof.
  split; [| split].
  - destruct (lstrip_slash_decompose endpoint) as [n Hn].
    exists n. split; [exact Hn | reflexivity].
  - apply lstrip_slash_no_leading.
  - intros n. unfold request_kwargs. rewrite lstrip_slash_slashes. reflexivity.
Qed.

(** X2. The headers of a request layer the headers given for the call
    over those of the session: a header given for the call wins, every
    other header of the session is sent as it is; without headers for the
    call the session's headers are sent unchanged. *)
Theorem x2_call_headers_override_session
        method endpoint (headers : dict string) params body :
  NoDup (map fst headers) ->
  (forall k,
      dict_get k (req_headers (request_kwargs self method endpoint (Some headers)
                                              params body))
      = match dict_get k headers with
        | Some v => Some v
        | None => dict_get k (session_headers self)
        end)
  /\ req_headers (request_kwargs self method endpoint None params body)
     = session_headers self.
Proof.
  intros Hnd. split; [| reflexivity].
  intros k. unfold request_kwargs. cbn [req_headers or_empty].
  apply dict_get_update. exact Hnd.
Qed.

End RequestLine.

(* ===================================================================== *)
(** * Further properties: the session and the operations *)
(* ===================================================================== *)

Section SessionHeaders.

Lemma lower_neq (k k' : string) : lower k <> lower k' -> k <> k'.
Proof. intros H E. apply H. rewrite E. reflexivity. Qed.

Lemma ci_set_get_same (k v : string) (d : dict string) :
  dict_get k (ci_set k v d) = Some v.
Proof.
  induction d as [| [k' v'] d IH]; cbn [ci_set dict_get].
  - rewrite String.eqb_refl. reflexivity.
  - destruct (String.eqb (lower k) (lower k')) eqn:E; cbn [dict_get].
    + rewrite String.eqb_refl. reflexivity.
    + apply String.eqb_neq, lower_neq, String.eqb_neq in E. rewrite E. exact IH.
Qed.

Lemma ci_set_get_other (k v k0 : string) (d : dict string) :
  lower k0 <> lower k -> dict_get k0 (ci_set k v d) = dict_get k0 d.
Proof.
  intros Hk. induction d as [| [k' v'] d IH]; cbn [ci_set dict_get].
  - apply lower_neq, String.eqb_neq in Hk. rewrite Hk. reflexivity.
  - destruct (String.eqb (lower k) (lower k')) eqn:E; cbn [dict_get].
    + apply String.eqb_eq in E.
      assert (H1 : String.eqb k0 k = false)
        by (apply String.eqb_neq, lower_neq; exact Hk).
      assert (H2 : String.eqb k0 k' = false)
        by (apply String.eqb_neq, lower_neq; rewrite <- E; exact Hk).
      rewrite H1, H2. reflexivity.
    + destruct (String.eqb k0 k'); [reflexivity | exact IH].
Qed.

Lemma ci_set_lower_keys (k v : string) (d : dict string) :
  lower_keys (ci_set k v d) =
  if in_dec string_dec (lower k) (lower_keys d) then lower_keys d
  else (lower_keys d ++ [lower k])%list.
Proof.
  induction d as [| [k' v'] d IH]; [reflexivity |].
  cbn [ci_set]. destruct (String.eqb (lower k) (lower k')) eqn:E.
  - apply String.eqb_eq in E.
    destruct (in_dec string_dec (lower k) (lower_keys ((k', v') :: d))) as [Hin | Hnot].
    + unfold lower_keys. cbn [map fst]. rewrite E. reflexivity.
    + exfalso. apply Hnot. left. symmetry. exact E.
  - apply String.eqb_neq in E.
    change (lower_keys ((k', v') :: ci_set k v d))
      with (lower k' :: lower_keys (ci_set k v d)).
    rewrite IH.
    change (lower_keys ((k', v') :: d)) with (lower k' :: lower_keys d).
    destruct (in_dec string_dec (lower k) (lower_keys d)) as [Hin | Hnot];
      destruct (in_dec string_dec (lower k) (lower k' :: lower_keys d))
        as [Hin' | Hnot']; try reflexivity.
    + exfalso. apply Hnot'. right. exact Hin.
    + exfalso. destruct Hin' as [H | H]; [apply E; symmetry; exact H | exact (Hnot H)].
Qed.

Lemma ci_set_keeps_keys_apart (k v : string) (d : dict string) :
  NoDup (lower_keys d) -> NoDup (lower_keys (ci_set k v d)).
Proof.
  intros Hnd. rewrite ci_set_lower_keys.
  destruct (in_dec string_dec (lower k) (lower_keys d)) as [Hin | Hnot];
    [exact Hnd |].
  apply NoDup_rev in Hnd. rewrite <- (rev_involutive (_ ++ _)%list).
  apply NoDup_rev. rewrite rev_app_distr. cbn [rev app]. constructor.
  - intros Hin. apply Hnot. apply in_rev. exact Hin.
  - exact Hnd.
Qed.

Context (env : Env).

(** X3. A new client sends [accept] and [Content-Type] as
    "application/json" and the client name and version of its
    configuration, whatever the session started with; a header of the
    session that is none of these four (in any spelling) stays; and where
    the session held each header once, without regard to case, it still
    does: the default [Accept] is replaced, not sent twice. *)
Theorem x3_client_headers (config : option CheckboxConfig) :
  let c := match config with Some c0 => c0 | None => default_config end in
  let h := session_headers (__init__ env config) in
  cfg (__init__ env config) = c
  /\ dict_get "accept" h = Some "application/json"
  /\ dict_get "Content-Type" h = Some "application/json"
  /\ dict_get "X-Client-Name" h = Some (client_name c)
  /\ dict_get "X-Client-Version" h = Some (client_version c)
  /\ (forall k,
         lower k <> "accept" -> lower k <> "content-type" ->
         lower k <> "x-client-name" -> lower k <> "x-client-version" ->
         dict_get k h = dict_get k (default_headers env))
  /\ (NoDup (lower_keys (default_headers env)) -> NoDup (lower_keys h)).
Proof.
  intros c h. unfold h, __init__, ci_update. cbn [session_headers cfg fold_left fst snd].
  fold c.
  split; [reflexivity |].
  split.
  { rewrite !ci_set_get_other by (vm_compute; discriminate). apply ci_set_get_same. }
  split.
  { rewrite !ci_set_get_other by (vm_compute; discriminate). apply ci_set_get_same. }
  split.
  { rewrite !ci_set_get_other by (vm_compute; discriminate). apply ci_set_get_same. }
  split; [apply ci_set_get_same |].
  split.
  - intros k H1 H2 H3 H4.
    rewrite !ci_set_get_other; [reflexivity | exact H1 | exact H2 | exact H3 | exact H4].
  - intros Hnd. repeat apply ci_set_keeps_keys_apart. exact Hnd.
Qed.

End SessionHeaders.

Section Calls.
Context (env : Env) (self : CheckboxAPI).

Lemma minor_units_raises (v : pyval) (e : pyexn) :
  minor_units env v = Raised e -> e <> AttributeError.
Proof.
  unfold minor_units, py_float, Py.round.
  destruct v as [| b | z | f | s | l | d]; try (intros H; injection H as <-; discriminate).
  - destruct (Prim2SF _); intros H; try discriminate; injection H as <-; discriminate.
  - destruct (float_of_int z); [| intros H; injection H as <-; discriminate].
    destruct (Prim2SF _); intros H; try discriminate; injection H as <-; discriminate.
  - destruct (Prim2SF _); intros H; try discriminate; injection H as <-; discriminate.
  - destruct (float_of_str env s); [| intros H; injection H as <-; discriminate].
    destruct (Prim2SF _); intros H; try discriminate; injection H as <-; discriminate.
Qed.

Lemma converted_goods_raises (products : list pydict) (e : pyexn) :
  converted_goods env products = Raised e -> e <> AttributeError.
Proof.
  induction products as [| p rest IH]; [discriminate |].
  cbn [converted_goods].
  destruct (minor_units env (get_default p "product_price" (PInt 0))) as [z | e0] eqn:Ep.
  - destruct (converted_goods env rest) as [gs | e1]; [discriminate |].
    intros H. injection H as <-. apply IH. reflexivity.
  - intros H. injection H as <-. apply (minor_units_raises _ _ Ep).
Qed.

(** What building a receipt leaves behind: nothing sent, nothing logged,
    at most one identifier drawn; and what it raises comes from an amount. *)
Lemma build_receipt_effects cashier order_id client products discount payment
      (w w1 : World) (o : outcome pydict) :
  build_receipt env cashier order_id client products discount payment w = (o, w1) ->
  (w1 = w \/ w1 = after_uuid w)
  /\ (forall e, o = Raised e -> e <> AttributeError).
Proof.
  rewrite build_receipt_run.
  destruct (converted_goods env products) as [goods | e0] eqn:Eg.
  - destruct (minor_units env (get_default payment "total_amount" (PInt 0)))
      as [value | e1] eqn:Ev.
    + cbv zeta. destruct (truthy_dict discount).
      * unfold discount_amount.
        destruct (eq_str (get (or_empty discount) "discount_type") discount_value).
        -- destruct (minor_units env (get_default (or_empty discount)
                                                   "discount_amount" (PInt 0)))
             as [z | e2] eqn:Ed; cbv beta iota;
             intros H; injection H as <- <-; (split; [right; reflexivity |]);
               intros e He; [discriminate |].
           injection He as <-. apply (minor_units_raises _ _ Ed).
        -- intros H. injection H as <- <-. split; [right; reflexivity | discriminate].
      * intros H. injection H as <- <-. split; [right; reflexivity | discriminate].
    + intros H. injection H as <- <-. split; [right; reflexivity |].
      intros e He. injection He as <-. apply (minor_units_raises _ _ Ev).
  - intros H. injection H as <- <-. split; [left; reflexivity |].
    intros e He. injection He as <-. apply (converted_goods_raises _ _ Eg).
Qed.

(** What a call comes to, with the world that it leaves before [_request]
    runs, if it runs. *)
Lemma perform_steps (c : Call) (w : World) :
  (exists e w1,
      perform env self c w = (Raised e, w1)
      /\ (w1 = w \/ w1 = after_uuid w)
      /\ e <> AttributeError
      /\ call_amounts_convert env c = false)
  \/
  (exists detail w1,
      perform env self c w =
        (Returned (failure 400 "Bad request" [("detail", PStr detail)]), w1)
      /\ (w1 = w \/ w1 = after_uuid w))
  \/
  (exists method endpoint headers params body w1,
      perform env self c w = _request env self method endpoint headers params body w1
      /\ (w1 = w \/ w1 = after_uuid w)).
Proof.
  destruct c as [login password | lk tok | tok sid | lk tok sid
                 | tok cashier oid client products discount payment rid];
    cbn [perform].
  - unfold cashier_signin.
    destruct (negb (truthy_str login) || negb (truthy_str password)).
    + right; left. exists "login and password are required", w.
      split; [reflexivity | left; reflexivity].
    + right; right. do 5 eexists. exists w. split; [reflexivity | left; reflexivity].
  - right; right. do 5 eexists. exists (after_uuid w).
    split; [reflexivity | right; reflexivity].
  - right; right. do 5 eexists. exists w. split; [reflexivity | left; reflexivity].
  - right; right. do 5 eexists. exists w. split; [reflexivity | left; reflexivity].
  - destruct (build_receipt env cashier oid client products discount payment w)
      as [[receipt | e] w1] eqn:Hbuild;
      destruct (build_receipt_effects _ _ _ _ _ _ _ _ _ Hbuild) as [Hw He].
    + rewrite (create_receipt_run env self tok _ _ _ _ _ _ rid _ _ _ Hbuild). cbv zeta.
      destruct (eq_str (get payment "payment_method") prepayment).
      { right; right. do 5 eexists. exists w1. split; [reflexivity | exact Hw]. }
      destruct (eq_str (get payment "payment_method") postpaid).
      * destruct (negb (truthy_str rid)).
        -- right; left. exists "relation_id is required for POSTPAID", w1.
           split; [reflexivity | exact Hw].
        -- right; right. do 5 eexists. exists w1. split; [reflexivity | exact Hw].
      * right; right. do 5 eexists. exists w1. split; [reflexivity | exact Hw].
    + left. exists e, w1.
      split; [apply create_receipt_raised; exact Hbuild |].
      split; [exact Hw |]. split; [apply He; reflexivity |].
      cbn [call_amounts_convert].
      destruct (amounts_convert env products discount payment) eqn:Hconv;
        [| reflexivity].
      apply (build_receipt_returns env cashier oid client products discount payment w)
        in Hconv.
      destruct Hconv as [r Hr]. rewrite Hr in Hbuild. discriminate.
Qed.

(** The records that [_request] logs. *)
Lemma _request_logged method endpoint headers params body (w : World) :
  logged (snd (_request env self method endpoint headers params body w)) =
  List.app (logged w)
   match session_request env (request_kwargs self method endpoint headers params body) with
   | Responded r =>
       match raise_for_status r with
       | Some e => ["Checkbox HTTP error: " ++ http_message e]
       | None => []
       end
   | RaisedHTTPError e => ["Checkbox HTTP error: " ++ http_message e]
   | RaisedRequestException msg => ["Checkbox network error: " ++ msg]
   end.
Proof.
  rewrite _request_run. cbv zeta.
  destruct (session_request env _) as [r | e | msg]; try reflexivity.
  destruct (raise_for_status r); [reflexivity |].
  cbn [snd after_call logged]. rewrite app_nil_r. reflexivity.
Qed.

Lemma _request_uuids method endpoint headers params body (w : World) :
  uuids_drawn (snd (_request env self method endpoint headers params body w))
  = uuids_drawn w.
Proof.
  rewrite _request_run. cbv zeta.
  destruct (session_request env _) as [r | e | msg]; try reflexivity.
  destruct (raise_for_status r); reflexivity.
Qed.

Lemma app_one_neq {A} (l : list A) (x : A) : (l ++ [x])%list <> l.
Proof.
  intros H. apply (f_equal (@List.length A)) in H.
  rewrite List.length_app in H. cbn [List.length] in H. lia.
Qed.

(** X4. No operation retries: a call hands at most one request to the
    session, after the requests sent before it; that request goes to a URL
    under the API base and version of the configuration and carries its
    timeout. *)
Theorem x4_at_most_one_request (c : Call) (w : World) :
  let w' := snd (perform env self c w) in
  net_calls w' = net_calls w
  \/ exists rq tail,
      net_calls w' = (net_calls w ++ [rq])%list
      /\ req_url rq = api_url (cfg self) ++ api_version (cfg self) ++ "/" ++ tail
      /\ req_timeout rq = timeout_sec (cfg self).
Proof.
  cbv zeta.
  destruct (perform_steps c w)
    as [(e & w1 & Hp & Hw & _ & _)
       | [(detail & w1 & Hp & Hw)
         | (method & endpoint & headers & params & body & w1 & Hp & Hw)]];
    rewrite Hp.
  - left. destruct Hw as [-> | ->]; reflexivity.
  - left. destruct Hw as [-> | ->]; reflexivity.
  - right. eexists. eexists. rewrite _request_net_calls.
    split; [destruct Hw as [-> | ->]; reflexivity |].
    split; reflexivity.
Qed.

(** X5. Logging follows the failures of the transport only: a call logs
    at most one record, a record of an HTTP error or of a network error;
    it logs none when it hands no request to the session (a Bad-request
    result is not logged), and none when its result has [success] true. *)
Theorem x5_logging_discipline (c : Call) (w w' : World) (res : pydict) :
  perform env self c w = (Returned res, w') ->
  (logged w' = logged w
   \/ exists msg,
       logged w' = List.app (logged w) ["Checkbox HTTP error: " ++ msg]
       \/ logged w' = List.app (logged w) ["Checkbox network error: " ++ msg])
  /\ (net_calls w' = net_calls w -> logged w' = logged w)
  /\ (dict_get "success" res = Some (PBool true) -> logged w' = logged w).
Proof.
  intros Hrun.
  destruct (perform_steps c w)
    as [(e & w1 & Hp & Hw & _ & _)
       | [(detail & w1 & Hp & Hw)
         | (method & endpoint & headers & params & body & w1 & Hp & Hw)]];
    rewrite Hp in Hrun.
  - discriminate.
  - injection Hrun as _ <-.
    assert (Hl : logged w1 = logged w) by (destruct Hw as [-> | ->]; reflexivity).
    split; [left; exact Hl |]. split; intros _; exact Hl.
  - assert (Hl : logged w1 = logged w) by (destruct Hw as [-> | ->]; reflexivity).
    assert (Hn : net_calls w1 = net_calls w) by (destruct Hw as [-> | ->]; reflexivity).
    pose proof (_request_logged method endpoint headers params body w1) as Hlog.
    pose proof (_request_net_calls env self method endpoint headers params body w1)
      as Hnet.
    pose proof Hrun as Hrun'.
    rewrite _request_run in Hrun'. cbv zeta in Hrun'.
    rewrite Hrun in Hlog, Hnet. cbn [snd] in Hlog, Hnet.
    rewrite Hl in Hlog. rewrite Hn in Hnet.
    split; [| split].
    + rewrite Hlog.
      destruct (session_request env _) as [r | e | msg].
      * destruct (raise_for_status r) as [e |].
        -- right. exists (http_message e). left. reflexivity.
        -- left. apply app_nil_r.
      * right. exists (http_message e). left. reflexivity.
      * right. exists msg. right. reflexivity.
    + intros Hsame. rewrite Hnet in Hsame. exfalso. exact (app_one_neq _ _ Hsame).
    + intros Hsuccess. rewrite Hlog.
      destruct (session_request env _) as [r | e | msg].
      * destruct (raise_for_status r) as [e |].
        -- apply except_HTTPError_returned in Hrun'. congruence.
        -- apply app_nil_r.
      * apply except_HTTPError_returned in Hrun'. congruence.
      * injection Hrun' as <- _. discriminate.
Qed.

(** X6. The four operations on the cashier and the shift, as requests:
    sign-in with a login and a password posts both to [cashier/signin]
    with the headers of the session alone; open-shift posts a fresh
    identifier to [shifts]; shift-status gets [shifts/<id>] with an empty
    body; close-shift posts an empty body to [shifts/<id>/close]. The
    three shift operations send the bearer token, and opening and closing
    send the licence key as well, whatever the session holds under these
    names. *)
Theorem x6_dispatch_table :
  (forall (login password : string) (w : World),
      login <> "" -> password <> "" ->
      exists rq,
        net_calls (snd (cashier_signin env self (Some login) (Some password) w))
          = (net_calls w ++ [rq])%list
        /\ req_method rq = "POST"
        /\ req_url rq = api_url (cfg self) ++ api_version (cfg self) ++ "/cashier/signin"
        /\ req_json rq = [("login", PStr login); ("password", PStr password)]
        /\ req_headers rq = session_headers self)
  /\
  (forall (license_key access_token : string) (w : World),
      exists rq,
        net_calls (snd (open_shift env self license_key access_token w))
          = (net_calls w ++ [rq])%list
        /\ req_method rq = "POST"
        /\ req_url rq = api_url (cfg self) ++ api_version (cfg self) ++ "/shifts"
        /\ req_json rq = [("id", PStr (uuid4 env (uuids_drawn w)))]
        /\ dict_get "X-License-Key" (req_headers rq) = Some license_key
        /\ dict_get "Authorization" (req_headers rq) = Some ("Bearer " ++ access_token))
  /\
  (forall (access_token shift_id : string) (w : World),
      exists rq,
        net_calls (snd (status_shift env self access_token shift_id w))
          = (net_calls w ++ [rq])%list
        /\ req_method rq = "GET"
        /\ req_url rq
           = api_url (cfg self) ++ api_version (cfg self) ++ "/shifts/" ++ shift_id
        /\ req_json rq = []
        /\ dict_get "Authorization" (req_headers rq) = Some ("Bearer " ++ access_token))
  /\
  (forall (license_key access_token shift_id : string) (w : World),
      exists rq,
        net_calls (snd (close_shift env self license_key access_token shift_id w))
          = (net_calls w ++ [rq])%list
        /\ req_method rq = "POST"
        /\ req_url rq
           = api_url (cfg self) ++ api_version (cfg self)
             ++ "/shifts/" ++ shift_id ++ "/close"
        /\ req_json rq = []
        /\ dict_get "X-License-Key" (req_headers rq) = Some license_key
        /\ dict_get "Authorization" (req_headers rq) = Some ("Bearer " ++ access_token)).
Proof.
  assert (Hnd2 : forall a b : string,
             NoDup (map fst [("X-License-Key", a); ("Authorization", b)])).
  { intros a b. cbn [map fst]. constructor.
    - intros [H | []]. discriminate.
    - constructor; [intros [] | constructor]. }
  assert (Hnd1 : forall b : string, NoDup (map fst [("Authorization", b)])).
  { intros b. cbn [map fst]. constructor; [intros [] | constructor]. }
  split; [| split; [| split]].
  - intros login password w Hl Hp.
    assert (E : negb (truthy_str (Some login)) || negb (truthy_str (Some password))
                = false).
    { cbn [truthy_str]. apply String.eqb_neq in Hl. apply String.eqb_neq in Hp.
      rewrite Hl, Hp. reflexivity. }
    unfold cashier_signin. rewrite E. eexists. rewrite _request_net_calls.
    split; [reflexivity |]. repeat (split; [reflexivity |]). reflexivity.
  - intros license_key access_token w. unfold open_shift, bind, fresh_uuid.
    eexists. rewrite _request_net_calls.
    split; [reflexivity |]. split; [reflexivity |]. split; [reflexivity |].
    split; [reflexivity |].
    unfold request_kwargs. cbn [req_headers or_empty].
    rewrite !dict_get_update by apply Hnd2. split; reflexivity.
  - intros access_token shift_id w. unfold status_shift.
    eexists. rewrite _request_net_calls.
    split; [reflexivity |]. split; [reflexivity |]. split; [reflexivity |].
    split; [reflexivity |].
    unfold request_kwargs. cbn [req_headers or_empty].
    rewrite dict_get_update by apply Hnd1. reflexivity.
  - intros license_key access_token shift_id w. unfold close_shift.
    eexists. rewrite _request_net_calls.
    split; [reflexivity |]. split; [reflexivity |]. split; [reflexivity |].
    split; [reflexivity |].
    unfold request_kwargs. cbn [req_headers or_empty].
    rewrite !dict_get_update by apply Hnd2. split; reflexivity.
Qed.

Lemma perform_uuids_monotone (c : Call) (w : World) :
  (uuids_drawn w <= uuids_drawn (snd (perform env self c w)))%nat.
Proof.
  destruct (perform_steps c w)
    as [(e & w1 & Hp & Hw & _ & _)
       | [(detail & w1 & Hp & Hw)
         | (method & endpoint & headers & params & body & w1 & Hp & Hw)]];
    rewrite Hp; try rewrite _request_uuids;
      destruct Hw as [-> | ->]; cbn [snd after_uuid uuids_drawn]; lia.
Qed.

Lemma run_calls_uuids_monotone (cs : list Call) (w : World) :
  (uuids_drawn w <= uuids_drawn (run_calls env self cs w))%nat.
Proof.
  unfold run_calls. revert w.
  induction cs as [| c cs IH]; intros w; cbn [fold_left]; [lia |].
  pose proof (perform_uuids_monotone c w) as H1.
  pose proof (IH (snd (perform env self c w))) as H2. lia.
Qed.

(** X7. Every receipt takes a freshly drawn identifier: its [id] is the
    next one that [uuid4] gives, and as long as [uuid4] never gives the
    same identifier twice, a receipt built later, after any calls in
    between, has another [id]. *)
Theorem x7_receipt_ids_are_fresh
        cashier1 order1 client1 products1 discount1 payment1
        cashier2 order2 client2 products2 discount2 payment2
        (cs : list Call) (w w1 w2 : World) (receipt1 receipt2 : pydict) :
  (forall n m, uuid4 env n = uuid4 env m -> n = m) ->
  build_receipt env cashier1 order1 client1 products1 discount1 payment1 w
    = (Returned receipt1, w1) ->
  build_receipt env cashier2 order2 client2 products2 discount2 payment2
                (run_calls env self cs w1)
    = (Returned receipt2, w2) ->
  dict_get "id" receipt1 = Some (PStr (uuid4 env (uuids_drawn w)))
  /\ dict_get "id" receipt2 <> dict_get "id" receipt1.
Proof.
  intros Hinj H1 H2.
  assert (Hid : forall cashier order client products discount payment w0 w0' receipt,
             build_receipt env cashier order client products discount payment w0
               = (Returned receipt, w0') ->
             dict_get "id" receipt = Some (PStr (uuid4 env (uuids_drawn w0)))).
  { intros cashier order client products discount payment w0 w0' receipt.
    rewrite build_receipt_run.
    destruct (converted_goods env products); [| discriminate].
    destruct (minor_units env _); [| discriminate].
    cbv zeta. destruct (truthy_dict discount).
    - destruct (discount_amount env _); [| discriminate].
      intros H. injection H as <- _. reflexivity.
    - intros H. injection H as <- _. reflexivity. }
  rewrite (Hid _ _ _ _ _ _ _ _ _ H1), (Hid _ _ _ _ _ _ _ _ _ H2).
  split; [reflexivity |].
  intros E. injection E as E. apply Hinj in E.
  pose proof (run_calls_uuids_monotone cs w1) as Hmono.
  rewrite (build_receipt_returned_world env _ _ _ _ _ _ _ _ _ H1) in Hmono, E.
  cbn [after_uuid uuids_drawn] in Hmono. lia.
Qed.

End Calls.

(* ===================================================================== *)
(** * Further properties: receipts and results *)
(* ===================================================================== *)

Section Receipts.
Context (env : Env) (self : CheckboxAPI).

Lemma converted_goods_nth (products : list pydict) (goods : list pyval) :
  converted_goods env products = Returned goods ->
  List.length goods = List.length products
  /\ forall i p,
      nth_error products i = Some p ->
      exists price,
        minor_units env (get_default p "product_price" (PInt 0)) = Returned price
        /\ nth_error goods i = Some (good_literal env p price).
Proof.
  revert goods. induction products as [| p0 rest IH]; intros goods H.
  - injection H as <-. split; [reflexivity |].
    intros i p Hi. destruct i; discriminate.
  - cbn [converted_goods] in H.
    destruct (minor_units env (get_default p0 "product_price" (PInt 0)))
      as [price0 | e] eqn:Ep; [| discriminate].
    destruct (converted_goods env rest) as [gs | e]; [| discriminate].
    injection H as <-. destruct (IH gs eq_refl) as [Hlen Hnth].
    split; [cbn [List.length]; rewrite Hlen; reflexivity |].
    intros i p Hi. destruct i as [| i].
    + injection Hi as <-. exists price0. split; [exact Ep | reflexivity].
    + cbn [nth_error] in Hi |- *. apply Hnth. exact Hi.
Qed.

(** X8. A receipt has one good per product, in the order of the products:
    the good of a product carries its name, the code [order_product_<id>]
    and its price in minor units, the quantity 1000 and both flags false.
    A product without [order_product] gets the code [order_product_None],
    one without [product_name] the name [None]. *)
Theorem x8_one_good_per_product
        cashier order_id client products discount payment
        (w w' : World) (receipt : pydict) :
  build_receipt env cashier order_id client products discount payment w
    = (Returned receipt, w') ->
  exists goods,
    dict_get "goods" receipt = Some (PList goods)
    /\ List.length goods = List.length products
    /\ (forall i p,
           nth_error products i = Some p ->
           exists price,
             minor_units env (get_default p "product_price" (PInt 0)) = Returned price
             /\ nth_error goods i =
                  Some (PDict [("good",
                                PDict [("code",
                                        PStr ("order_product_"
                                                ++ py_str env (get p "order_product")));
                                       ("name", get p "product_name");
                                       ("price", PInt price)]);
                               ("quantity", PInt 1000);
                               ("is_return", PBool false);
                               ("is_winnings_payout", PBool false)])
             /\ (dict_get "order_product" p = None ->
                 py_str env (get p "order_product") = "None")
             /\ (dict_get "product_name" p = None -> get p "product_name" = PNone)).
Proof.
  rewrite build_receipt_run.
  destruct (converted_goods env products) as [goods | e] eqn:Eg; [| discriminate].
  destruct (converted_goods_nth products goods Eg) as [Hlen Hnth].
  destruct (minor_units env _) as [value | e]; [| discriminate].
  cbv zeta. intros H.
  assert (Hgoods : dict_get "goods" receipt = Some (PList goods)).
  { destruct (truthy_dict discount).
    - destruct (discount_amount env _); [| discriminate].
      injection H as <- _. reflexivity.
    - injection H as <- _. reflexivity. }
  exists goods. split; [exact Hgoods |]. split; [exact Hlen |].
  intros i p Hi. destruct (Hnth i p Hi) as [price [Hp Hg]].
  exists price. split; [exact Hp |]. split; [exact Hg |].
  split; intros Hnone; unfold get; rewrite Hnone; reflexivity.
Qed.




(** X10. The conversion to minor units rounds to the nearest integer, a
    tie going to the even one: when the product [amount * 100] is the
    finite float [m * 2^e] (negated when [s] is set), the result [n] is
    that number itself for [e >= 0], and for [e < 0] it lies within one
    half of it, and is even whenever it lies exactly one half away. *)
Theorem x10_minor_units_round_half_even
        (f : float) (s : bool) (m : positive) (e : Z) :
  Prim2SF (f * 100)%float = S754_finite s m e ->
  exists n,
    minor_units env (PFloat f) = Returned n
    /\ (0 <= e -> n = (if s then -1 else 1) * (Z.pos m * 2 ^ e))
    /\ (e < 0 ->
        2 * Z.abs (n * 2 ^ (- e) - (if s then -1 else 1) * Z.pos m) <= 2 ^ (- e)
        /\ (2 * (Z.pos m mod 2 ^ (- e)) = 2 ^ (- e) -> Z.even n = true)).
Proof.
  intros Hsf. unfold minor_units, py_float, Py.round. rewrite Hsf.
  eexists. split; [reflexivity |]. split.
  - intros He. unfold nearest_even.
    apply Z.leb_le in He. rewrite He. destruct s; lia.
  - intros He.
    pose proof (nearest_even_nearest m e He) as Hnear.
    pose proof (nearest_even_tie m e He) as Htie.
    destruct s.
    + split.
      * replace (- nearest_even m e * 2 ^ (- e) - -1 * Z.pos m)
          with (- (nearest_even m e * 2 ^ (- e) - Z.pos m)) by ring.
        rewrite Z.abs_opp. exact Hnear.
      * intros H. rewrite Z.even_opp. apply Htie. exact H.
    + split.
      * replace (nearest_even m e * 2 ^ (- e) - 1 * Z.pos m)
          with (nearest_even m e * 2 ^ (- e) - Z.pos m) by ring.
        exact Hnear.
      * exact Htie.
Qed.

End Receipts.

Section Results.
Context (env : Env) (self : CheckboxAPI).


(** X12. An amount that does not convert stops [create_receipt] before
    anything leaves the client: the call raises the exception of the
    conversion ([TypeError], [ValueError] or [OverflowError], never
    [AttributeError]), hands no request to the session and logs nothing. *)
Theorem x12_bad_amount_sends_nothing (c : Call) (w : World) :
  call_amounts_convert env c = false ->
  exists e w',
    perform env self c w = (Raised e, w')
    /\ e <> AttributeError
    /\ net_calls w' = net_calls w
    /\ logged w' = logged w.
Proof.
  intros Hconv.
  destruct (perform_cases env self c w)
    as [(e & w1 & Hp & Hcalls & _)
       | [(detail & w1 & _ & _ & Hyes)
         | (method & endpoint & headers & params & body & w1 & _ & _ & Hyes)]];
    try (rewrite Hconv in Hyes; discriminate).
  exists e, w1. split; [exact Hp |].
  destruct (perform_steps env self c w)
    as [(e' & w1' & Hp' & Hw & He & _)
       | [(detail & w1' & Hp' & _)
         | (method & endpoint & headers & params & body & w1' & Hp' & Hw)]].
  - rewrite Hp in Hp'. injection Hp' as <- <-.
    split; [exact He |]. split; [exact Hcalls |].
    destruct Hw as [-> | ->]; reflexivity.
  - rewrite Hp in Hp'. discriminate.
  - destruct c as [login password | lk tok | tok sid | lk tok sid
                   | tok cashier oid client products discount payment rid];
      try discriminate.
    cbn [call_amounts_convert] in Hconv. cbn [perform] in Hp.
    destruct (build_receipt env cashier oid client products discount payment w)
      as [[receipt | e0] w0] eqn:Hbuild.
    + exfalso.
      assert (Hyes : amounts_convert env products discount payment = true).
      { apply (build_receipt_returns env cashier oid client products discount payment w).
        exists receipt. rewrite Hbuild.
        rewrite (build_receipt_returned_world env _ _ _ _ _ _ _ _ _ Hbuild).
        reflexivity. }
      rewrite Hconv in Hyes. discriminate.
    + rewrite (create_receipt_raised env self tok _ _ _ _ _ _ rid _ _ _ Hbuild) in Hp.
      injection Hp as <- <-.
      destruct (build_receipt_effects env _ _ _ _ _ _ _ _ _ Hbuild) as [Hw0 He0].
      split; [apply He0; reflexivity |]. split; [exact Hcalls |].
      destruct Hw0 as [-> | ->]; reflexivity.
Qed.

(** The three shapes of a result that [_request] returns. *)
Lemma _request_returned_shape method endpoint headers params body
      (w w' : World) (res : pydict) :
  _request env self method endpoint headers params body w = (Returned res, w') ->
  (exists r,
      session_request env (request_kwargs self method endpoint headers params body)
        = Responded r
      /\ ~ 400 <= status_code r < 600 /\ res = _parse r)
  \/ (exists status d, res = failure status "HTTP error" d)
  \/ (exists d, res = failure 400 "Network error" d).
Proof.
  rewrite _request_run. cbv zeta.
  assert (Hhandler : forall e w0,
             except_HTTPError e w0 = (Returned res, w') ->
             exists status d, res = failure status "HTTP error" d).
  { intros e w0. unfold except_HTTPError, bind, log_error, lift.
    intros H. injection H as H _. apply _error_returned in H.
    destruct H as [d ->]. eexists. exists d. reflexivity. }
  destruct (session_request env _) as [r | e | msg].
  - destruct (raise_for_status r) as [e |] eqn:Eraise.
    + intros H. right; left. apply (Hhandler e _ H).
    + intros H. injection H as <- _. left. exists r.
      split; [reflexivity |]. split; [| reflexivity].
      intros Hst. destruct (raise_for_status_some r Hst) as [msg Hmsg].
      rewrite Hmsg in Eraise. discriminate.
  - intros H. right; left. apply (Hhandler e _ H).
  - intros H. injection H as <- _. right; right.
    exists [("detail", PStr msg)]. reflexivity.
Qed.

(** X13. What every returned result looks like: it has [success],
    [status] and [data]; it has [error] exactly when it has
    [error_description]; a result with [success] true has no [error] and
    a status in 200..299; and a result with [error] has [success] false,
    its [error] being "Bad request", "HTTP error" or "Network error". *)
Theorem x13_result_shape (c : Call) (w w' : World) (res : pydict) :
  perform env self c w = (Returned res, w') ->
  is_result res = true
  /\ has_key "error" res = has_key "error_description" res
  /\ (dict_get "success" res = Some (PBool true) ->
      has_key "error" res = false
      /\ exists status, dict_get "status" res = Some (PInt status)
                        /\ 200 <= status < 300)
  /\ (has_key "error" res = true ->
      dict_get "success" res = Some (PBool false)
      /\ (dict_get "error" res = Some (PStr "Bad request")
          \/ dict_get "error" res = Some (PStr "HTTP error")
          \/ dict_get "error" res = Some (PStr "Network error"))).
Proof.
  intros Hrun.
  assert (Hfailure : forall status error d,
             (error = "Bad request" \/ error = "HTTP error" \/ error = "Network error") ->
             res = failure status error d ->
             is_result res = true
             /\ has_key "error" res = has_key "error_description" res
             /\ (dict_get "success" res = Some (PBool true) ->
                 has_key "error" res = false
                 /\ exists st, dict_get "status" res = Some (PInt st)
                               /\ 200 <= st < 300)
             /\ (has_key "error" res = true ->
                 dict_get "success" res = Some (PBool false)
                 /\ (dict_get "error" res = Some (PStr "Bad request")
                     \/ dict_get "error" res = Some (PStr "HTTP error")
                     \/ dict_get "error" res = Some (PStr "Network error")))).
  { intros status error d Herr ->.
    split; [reflexivity |]. split; [reflexivity |]. split; [discriminate |].
    intros _. split; [reflexivity |].
    destruct Herr as [-> | [-> | ->]];
      [left | right; left | right; right]; reflexivity. }
  destruct (perform_steps env self c w)
    as [(e & w1 & Hp & _)
       | [(detail & w1 & Hp & _)
         | (method & endpoint & headers & params & body & w1 & Hp & _)]];
    rewrite Hp in Hrun.
  - discriminate.
  - injection Hrun as <- _.
    apply (Hfailure 400 "Bad request" [("detail", PStr detail)]);
      [left; reflexivity | reflexivity].
  - destruct (_request_returned_shape _ _ _ _ _ _ _ _ Hrun)
      as [(r & _ & _ & ->) | [(status & d & Hres) | (d & Hres)]].
    + split; [reflexivity |]. split; [reflexivity |]. split.
      * change (dict_get "success" (_parse r))
          with (Some (PBool ((200 <=? status_code r) && (status_code r <? 300)))).
        intros H. injection H as H. split; [reflexivity |].
        exists (status_code r). split; [reflexivity |].
        apply in_2xx_reflect. exact H.
      * discriminate.
    + apply (Hfailure status "HTTP error" d); [right; left; reflexivity | exact Hres].
    + apply (Hfailure 400 "Network error" d); [right; right; reflexivity | exact Hres].
Qed.

(** X14. The status of a result is the status of the response: whenever
    [_request] returns on a response, by [_parse] or by the handler of
    HTTP errors, its [status] is the status code received; the same holds
    of an [HTTPError] raised by the session with its response. *)
Theorem x14_status_is_echoed
        method endpoint headers params body (w w' : World) (res : pydict)
        (r : Response) (msg : string) :
  session_request env (request_kwargs self method endpoint headers params body)
    = Responded r
  \/ session_request env (request_kwargs self method endpoint headers params body)
     = RaisedHTTPError (mkHTTPError msg (Some r)) ->
  _request env self method endpoint headers params body w = (Returned res, w') ->
  dict_get "status" res = Some (PInt (status_code r)).
Proof.
  intros Hsend. rewrite _request_run. cbv zeta.
  assert (Hhandler : forall m w0,
             except_HTTPError (mkHTTPError m (Some r)) w0 = (Returned res, w') ->
             dict_get "status" res = Some (PInt (status_code r))).
  { intros m w0. unfold except_HTTPError, bind, log_error, lift.
    cbn [response http_message]. intros H. injection H as H _.
    apply _error_returned in H. destruct H as [d ->]. reflexivity. }
  destruct Hsend as [-> | ->].
  - destruct (raise_for_status r) as [e |] eqn:Eraise.
    + assert (Hst : 400 <= status_code r < 600).
      { destruct (Z_le_dec 400 (status_code r)) as [H1 | H1];
          destruct (Z_lt_dec (status_code r) 600) as [H2 | H2]; try lia;
            rewrite raise_for_status_none in Eraise by lia; discriminate. }
      destruct (raise_for_status_some r Hst) as [m Hm].
      rewrite Hm in Eraise. injection Eraise as <-. apply Hhandler.
    + intros H. injection H as <- _. reflexivity.
  - apply Hhandler.
Qed.

(** X15. An HTTP error whose JSON body is a falsy value (null, false, 0,
    the empty string, list or object) is reported with the empty object
    as [data], and with "HTTP error" as [error_description]. *)
Theorem x15_falsy_error_body_becomes_empty_object
        method endpoint headers params body (w : World) (r : Response) (v : pyval) :
  session_request env (request_kwargs self method endpoint headers params body)
    = Responded r ->
  400 <= status_code r < 600 ->
  json r = Some v ->
  truthy v = false ->
  fst (_request env self method endpoint headers params body w)
  = Returned [("success", PBool false);
              ("status", PInt (status_code r));
              ("error", PStr "HTTP error");
              ("error_description", PStr "HTTP error");
              ("data", PDict [])].
Proof.
  intros Hsend Hst Hjson Hfalsy. rewrite _request_run. cbv zeta. rewrite Hsend.
  destruct (raise_for_status_some r Hst) as [msg ->].
  unfold except_HTTPError, bind, log_error, lift. cbn [response http_message fst].
  rewrite Hjson. unfold _error. rewrite Hfalsy. reflexivity.
Qed.

End Results.

Section RelationId.
Context (env : Env) (self : CheckboxAPI).

(** X16. The relation id matters to "POSTPAID" alone: with any other
    payment method [create_receipt] does the same with every relation id,
    given or not. *)
Theorem x16_relation_id_only_for_postpaid
        token cashier order_id client products discount payment
        (relation_id relation_id' : option string) (w : World) :
  get payment "payment_method" <> PStr "POSTPAID" ->
  create_receipt env self token cashier order_id client products discount payment
                 relation_id w
  = create_receipt env self token cashier order_id client products discount payment
                   relation_id' w.
Proof.
  intros Hpm. unfold create_receipt, bind.
  destruct (build_receipt env cashier order_id client products discount payment w)
    as [[receipt | e] w1]; [| reflexivity].
  cbv zeta. unfold postpaid. rewrite (eq_str_false _ _ Hpm).
  destruct (eq_str (get payment "payment_method") prepayment); reflexivity.
Qed.

End RelationId.

(* ===================================================================== *)
(** * Further properties: concrete runs *)
(* ===================================================================== *)

Lemma x1_witness :
  lstrip_slash "//shifts" = "shifts" /\ "s"%char <> "/"%char.
Proof.
  split; [reflexivity |].
  exact (proj1 (proj2 (x1_url_has_one_separator Scenario.api "GET" "//shifts"
                                                None None None))
               "s"%char "hifts" eq_refl).
Defined.

Lemma x2_witness :
  NoDup (map fst [("Authorization", "Bearer token"); ("accept", "text/plain")])
  /\ dict_get "accept"
       (req_headers (request_kwargs Scenario.api "GET" "shifts/7"
                                    (Some [("Authorization", "Bearer token");
                                           ("accept", "text/plain")])
                                    None None))
     = Some "text/plain"
  /\ dict_get "X-Client-Name"
       (req_headers (request_kwargs Scenario.api "GET" "shifts/7"
                                    (Some [("Authorization", "Bearer token");
                                           ("accept", "text/plain")])
                                    None None))
     = Some "Name".
Proof.
  assert (Hnd : NoDup (map fst [("Authorization", "Bearer token");
                                ("accept", "text/plain")])).
  { cbn [map fst]. constructor.
    - intros [H | []]. discriminate.
    - constructor; [intros [] | constructor]. }
  split; [exact Hnd |].
  destruct (x2_call_headers_override_session
              Scenario.api "GET" "shifts/7"
              [("Authorization", "Bearer token"); ("accept", "text/plain")]
              None None Hnd) as [H _].
  split; [exact (H "accept") | exact (H "X-Client-Name")].
Defined.

Lemma x3_witness :
  NoDup (lower_keys (default_headers Scenario.offline))
  /\ NoDup (lower_keys (session_headers (__init__ Scenario.offline None))).
Proof.
  assert (Hnd : NoDup (lower_keys (default_headers Scenario.offline))).
  { vm_compute. repeat constructor; cbn [In]; intuition discriminate. }
  split; [exact Hnd |].
  destruct (x3_client_headers Scenario.offline None) as [_ [_ [_ [_ [_ [_ H]]]]]].
  exact (H Hnd).
Defined.

Lemma x5_witness :
  exists res w',
    perform (Scenario.answering Scenario.not_found) Scenario.api
            (ShiftStatus "token" "7") Scenario.idle = (Returned res, w')
    /\ (logged w' = logged Scenario.idle
        \/ exists msg,
            logged w' = List.app (logged Scenario.idle) ["Checkbox HTTP error: " ++ msg]
            \/ logged w'
               = List.app (logged Scenario.idle) ["Checkbox network error: " ++ msg]).
Proof.
  assert (H : exists res w',
             perform (Scenario.answering Scenario.not_found) Scenario.api
                     (ShiftStatus "token" "7") Scenario.idle = (Returned res, w'))
    by (eexists; eexists; vm_compute; reflexivity).
  destruct H as [res [w' H]]. exists res, w'. split; [exact H |].
  exact (proj1 (x5_logging_discipline (Scenario.answering Scenario.not_found)
                                      Scenario.api _ _ _ _ H)).
Defined.

Lemma x6_witness :
  "cashier" <> "" /\ "secret" <> ""
  /\ exists rq,
      net_calls (snd (cashier_signin Scenario.offline Scenario.api
                                     (Some "cashier") (Some "secret") Scenario.idle))
        = [rq]
      /\ req_method rq = "POST"
      /\ req_url rq = "https://api.checkbox.ua/api/v1/cashier/signin"
      /\ req_json rq = [("login", PStr "cashier"); ("password", PStr "secret")].
Proof.
  assert (H1 : "cashier" <> "") by discriminate.
  assert (H2 : "secret" <> "") by discriminate.
  split; [exact H1 |]. split; [exact H2 |].
  destruct (x6_dispatch_table Scenario.offline Scenario.api) as [H _].
  destruct (H "cashier" "secret" Scenario.idle H1 H2)
    as [rq [Hcalls [Hm [Hu [Hj _]]]]].
  exists rq. split; [exact Hcalls |]. split; [exact Hm |]. split; [exact Hu | exact Hj].
Defined.

Lemma tally_injective (n m : nat) : Scenario.tally n = Scenario.tally m -> n = m.
Proof.
  revert m. induction n as [| n IH]; intros [| m] H; cbn [Scenario.tally] in H;
    try discriminate; [reflexivity |].
  injection H as H. f_equal. apply IH. exact H.
Defined.

Lemma x7_witness :
  (forall n m, uuid4 Scenario.counting n = uuid4 Scenario.counting m -> n = m)
  /\ exists receipt1 receipt2 w1 w2,
      build_receipt Scenario.counting "Ann" 12 Scenario.client
                    [Scenario.tea (PFloat 19.99)] None (Scenario.payment "FULL")
                    Scenario.idle = (Returned receipt1, w1)
      /\ build_receipt Scenario.counting "Ann" 13 Scenario.client
                       [Scenario.tea (PFloat 19.99)] None (Scenario.payment "FULL")
                       (run_calls Scenario.counting Scenario.api
                                  [OpenShift "key" "token"; ShiftStatus "token" "7"] w1)
         = (Returned receipt2, w2)
      /\ dict_get "id" receipt2 <> dict_get "id" receipt1.
Proof.
  split; [exact tally_injective |].
  assert (H1 : exists receipt1 w1,
             build_receipt Scenario.counting "Ann" 12 Scenario.client
                           [Scenario.tea (PFloat 19.99)] None (Scenario.payment "FULL")
                           Scenario.idle = (Returned receipt1, w1))
    by (eexists; eexists; vm_compute; reflexivity).
  destruct H1 as [receipt1 [w1 H1]].
  assert (H2 : exists receipt2 w2,
             build_receipt Scenario.counting "Ann" 13 Scenario.client
                           [Scenario.tea (PFloat 19.99)] None (Scenario.payment "FULL")
                           (run_calls Scenario.counting Scenario.api
                                      [OpenShift "key" "token"; ShiftStatus "token" "7"]
                                      w1)
             = (Returned receipt2, w2)).
  { vm_compute in H1. injection H1 as _ <-.
    eexists; eexists; vm_compute; reflexivity. }
  destruct H2 as [receipt2 [w2 H2]].
  exists receipt1, receipt2, w1, w2. split; [exact H1 |]. split; [exact H2 |].
  exact (proj2 (x7_receipt_ids_are_fresh
                  Scenario.counting Scenario.api _ _ _ _ _ _ _ _ _ _ _ _ _ _ _ _ _ _
                  tally_injective H1 H2)).
Defined.

Lemma x8_witness :
  build_receipt Scenario.offline "Ann" 12 Scenario.client
                [Scenario.tea (PFloat 19.99)] (Some Scenario.value_discount)
                (Scenario.payment "FULL") Scenario.idle
    = (Returned (Scenario.receipt_with "VALUE" 550), after_uuid Scenario.idle)
  /\ exists goods,
      dict_get "goods" (Scenario.receipt_with "VALUE" 550) = Some (PList goods)
      /\ List.length goods = 1%nat.
Proof.
  split; [apply scenario_receipt |].
  destruct (x8_one_good_per_product
              Scenario.offline "Ann" 12 Scenario.client
              [Scenario.tea (PFloat 19.99)] (Some Scenario.value_discount)
              (Scenario.payment "FULL") Scenario.idle (after_uuid Scenario.idle)
              (Scenario.receipt_with "VALUE" 550) (scenario_receipt "FULL"))
    as [goods [Hg [Hlen _]]].
  exists goods. split; [exact Hg | exact Hlen].
Defined.


(** 0.125 * 100 is 12.5, a tie: it goes to 12. *)
Lemma x10_witness :
  Prim2SF (0.125 * 100)%float = S754_finite false 7036874417766400 (-49)
  /\ minor_units Scenario.offline (PFloat 0.125) = Returned 12.
Proof.
  assert (H : Prim2SF (0.125 * 100)%float = S754_finite false 7036874417766400 (-49))
    by (vm_compute; reflexivity).
  split; [exact H |].
  destruct (x10_minor_units_round_half_even
              Scenario.offline 0.125%float false 7036874417766400 (-49) H)
    as [n [Hn _]].
  rewrite Hn. vm_compute in Hn. injection Hn as <-. reflexivity.
Defined.


Lemma x12_witness :
  call_amounts_convert
    Scenario.offline
    (CreateReceipt "token" "Ann" 12 Scenario.client [Scenario.tea PNone] None
                   (Scenario.payment "FULL") None) = false
  /\ exists e w',
      perform Scenario.offline Scenario.api
              (CreateReceipt "token" "Ann" 12 Scenario.client [Scenario.tea PNone] None
                             (Scenario.payment "FULL") None) Scenario.idle
        = (Raised e, w')
      /\ e <> AttributeError
      /\ net_calls w' = net_calls Scenario.idle
      /\ logged w' = logged Scenario.idle.
Proof.
  assert (H : call_amounts_convert
                Scenario.offline
                (CreateReceipt "token" "Ann" 12 Scenario.client [Scenario.tea PNone]
                               None (Scenario.payment "FULL") None) = false)
    by (vm_compute; reflexivity).
  split; [exact H |].
  exact (x12_bad_amount_sends_nothing Scenario.offline Scenario.api _ Scenario.idle H).
Defined.

Lemma x13_witness :
  exists res w',
    perform (Scenario.answering Scenario.ok_list) Scenario.api
            (ShiftStatus "token" "7") Scenario.idle = (Returned res, w')
    /\ is_result res = true
    /\ has_key "error" res = has_key "error_description" res.
Proof.
  assert (H : exists res w',
             perform (Scenario.answering Scenario.ok_list) Scenario.api
                     (ShiftStatus "token" "7") Scenario.idle = (Returned res, w'))
    by (eexists; eexists; vm_compute; reflexivity).
  destruct H as [res [w' H]]. exists res, w'. split; [exact H |].
  destruct (x13_result_shape (Scenario.answering Scenario.ok_list) Scenario.api
                             _ _ _ _ H) as [H1 [H2 _]].
  split; [exact H1 | exact H2].
Defined.

Lemma x14_witness :
  exists res w',
    _request (Scenario.answering Scenario.not_found) Scenario.api
             "GET" "shifts/7" None None None Scenario.idle = (Returned res, w')
    /\ dict_get "status" res = Some (PInt 404).
Proof.
  assert (H : exists res w',
             _request (Scenario.answering Scenario.not_found) Scenario.api
                      "GET" "shifts/7" None None None Scenario.idle = (Returned res, w'))
    by (eexists; eexists; vm_compute; reflexivity).
  destruct H as [res [w' H]]. exists res, w'. split; [exact H |].
  exact (x14_status_is_echoed (Scenario.answering Scenario.not_found) Scenario.api
                              "GET" "shifts/7" None None None _ _ _
                              Scenario.not_found "" (or_introl eq_refl) H).
Defined.

Lemma x15_witness :
  400 <= status_code Scenario.server_error_empty_list < 600
  /\ json Scenario.server_error_empty_list = Some (PList [])
  /\ truthy (PList []) = false
  /\ fst (_request (Scenario.answering Scenario.server_error_empty_list) Scenario.api
                   "GET" "shifts/7" None None None Scenario.idle)
     = Returned [("success", PBool false);
                 ("status", PInt 500);
                 ("error", PStr "HTTP error");
                 ("error_description", PStr "HTTP error");
                 ("data", PDict [])].
Proof.
  assert (Hst : 400 <= status_code Scenario.server_error_empty_list < 600)
    by (unfold Scenario.server_error_empty_list; cbn [status_code]; lia).
  split; [exact Hst |]. split; [reflexivity |]. split; [reflexivity |].
  exact (x15_falsy_error_body_becomes_empty_object
           (Scenario.answering Scenario.server_error_empty_list) Scenario.api
           "GET" "shifts/7" None None None Scenario.idle
           Scenario.server_error_empty_list (PList []) eq_refl Hst eq_refl eq_refl).
Defined.

Lemma x16_witness :
  get (Scenario.payment "PREPAYMENT") "payment_method" <> PStr "POSTPAID"
  /\ create_receipt Scenario.offline Scenario.api "token" "Ann" 12 Scenario.client
                    [Scenario.tea (PFloat 19.99)] None (Scenario.payment "PREPAYMENT")
                    (Some "abc") Scenario.idle
     = create_receipt Scenario.offline Scenario.api "token" "Ann" 12 Scenario.client
                      [Scenario.tea (PFloat 19.99)] None (Scenario.payment "PREPAYMENT")
                      None Scenario.idle.
Proof.
  assert (H : get (Scenario.payment "PREPAYMENT") "payment_method" <> PStr "POSTPAID")
    by discriminate.
  split; [exact H |].
  exact (x16_relation_id_only_for_postpaid
           Scenario.offline Scenario.api "token" "Ann" 12 Scenario.client
           [Scenario.tea (PFloat 19.99)] None (Scenario.payment "PREPAYMENT")
           (Some "abc") None Scenario.idle H).
Defined.
